(** * ToneShiftingBot: a shallow embedding of [main.py]

    The bot receives a video URL and an optional number of semitones,
    downloads the audio track, shifts its pitch and sends the file back.
    This development embeds the functions of [main.py] as Rocq
    definitions and proves the behavioural properties of its
    specification about them.

    Modelling choices, in the order of the file:
    - Python [str] values are [string]s; the whitespace of [str.split]
      and [str.strip] is the ASCII whitespace of Python.
    - [pathlib.Path] is a record of its root and its name components, as
      [PurePosixPath] parses a string.
    - The file system is the finite set of the path strings that exist,
      the process environment a finite map.
    - Effects are threaded through a state-and-exception monad: a
      computation maps a state to a result (a value or a raised
      exception) and a new state.  The state carries the log of every
      externally visible action, in order.
    - The third-party libraries (yt_dlp, librosa, soundfile, requests,
      subprocess, getpass) are not part of the program.  They are
      gathered in a record of functions of the current state, so that
      their answers may depend on the whole history.  Exceptions are the
      instances of Python's [Exception]; sending a reply is an output
      action recorded in the log. *)

From Stdlib Require Import ZArith String Ascii List Bool Lia DecimalString DecimalPos.
From stdpp Require Import base option list gmap strings.

Set Warnings "-register-all".

Local Open Scope Z_scope.
Local Open Scope string_scope.

(** ** Python strings *)

Module PyStr.

(** The whitespace of [str.split()] and [str.strip()] on ASCII text:
    tab, line feed, vertical tab, form feed, carriage return, the four
    separators 0x1c to 0x1f and the space. *)
Definition isspace (c : ascii) : bool :=
  let n := nat_of_ascii c in
  ((9 <=? n)%nat && (n <=? 13)%nat) || ((28 <=? n)%nat && (n <=? 32)%nat).

Definition is_empty (s : string) : bool :=
  match s with EmptyString => true | String _ _ => false end.

(** [s.split()]: the maximal runs of non-whitespace characters.
    [tok] is the token being read. *)
Fixpoint split_from (tok s : string) : list string :=
  match s with
  | EmptyString => if is_empty tok then [] else [tok]
  | String c s' =>
      if isspace c
      then (if is_empty tok then split_from "" s' else tok :: split_from "" s')
      else split_from (tok +:+ String c "") s'
  end.

Definition split (s : string) : list string := split_from "" s.

Fixpoint lstrip (s : string) : string :=
  match s with
  | EmptyString => ""
  | String c s' => if isspace c then lstrip s' else s
  end.

(** [s.rstrip()]: a character is dropped when it is whitespace and
    nothing is kept after it. *)
Fixpoint rstrip (s : string) : string :=
  match s with
  | EmptyString => ""
  | String c s' =>
      let r := rstrip s' in
      if isspace c && is_empty r then "" else String c r
  end.

(** [s.strip()] *)
Definition strip (s : string) : string := rstrip (lstrip s).

(** The part of [s] before its last occurrence of [sep], when there is
    one. *)
Fixpoint before_last (sep : ascii) (s : string) : option string :=
  match s with
  | EmptyString => None
  | String c s' =>
      match before_last sep s' with
      | Some h => Some (String c h)
      | None => if Ascii.eqb c sep then Some "" else None
      end
  end.

(** [s.rsplit(sep, 1)[0]]: the list has the whole of [s] as its only
    element when [sep] does not occur. *)
Definition rsplit1_head (sep : ascii) (s : string) : string :=
  default s (before_last sep s).

Fixpoint all_space (s : string) : bool :=
  match s with
  | EmptyString => true
  | String c s' => isspace c && all_space s'
  end.

Definition starts_with_space (s : string) : bool :=
  match s with
  | String c _ => isspace c
  | EmptyString => false
  end.


Fixpoint has_space (s : string) : bool :=
  match s with
  | EmptyString => false
  | String c s' => isspace c || has_space s'
  end.

(** What [split] returns as one piece: not empty, no whitespace. *)
Definition is_token (s : string) : bool :=
  negb (is_empty s) && negb (has_space s).

Fixpoint contains (c : ascii) (s : string) : bool :=
  match s with
  | EmptyString => false
  | String d s' => Ascii.eqb d c || contains c s'
  end.

Definition startswith_char (c : ascii) (s : string) : bool :=
  match s with
  | String d _ => Ascii.eqb d c
  | EmptyString => false
  end.

Fixpoint endswith_char (c : ascii) (s : string) : bool :=
  match s with
  | EmptyString => false
  | String d EmptyString => Ascii.eqb d c
  | String _ s' => endswith_char c s'
  end.

(** [s.split(sep)] for a one-character separator: empty pieces are
    kept.  [piece] is the piece being read. *)
Fixpoint split_on_from (sep : ascii) (piece s : string) : list string :=
  match s with
  | EmptyString => [piece]
  | String c s' =>
      if Ascii.eqb c sep
      then piece :: split_on_from sep "" s'
      else split_on_from sep (piece +:+ String c "") s'
  end.

Definition split_on (sep : ascii) (s : string) : list string :=
  split_on_from sep "" s.

(** [sep.join(l)] *)
Fixpoint join (sep : string) (l : list string) : string :=
  match l with
  | [] => ""
  | [x] => x
  | x :: l' => x +:+ sep +:+ join sep l'
  end.

(** [str(n)] for an integer. *)
Definition of_int (n : Z) : string :=
  NilZero.string_of_int (Z.to_int n).

End PyStr.

(** ** Paths: [pathlib.PurePosixPath] and [os.path.join] *)

Module PyPath.

(** A path as pathlib keeps it: the root ([""], ["/"] or ["//"]) and
    the name components after it. *)
Record Path := mkPath { root : string; names : list string }.

Definition parse_root (s : string) : string :=
  match s with
  | String "/" (String "/" (String "/" _)) => "/"
  | String "/" (String "/" _) => "//"
  | String "/" _ => "/"
  | _ => ""
  end.

Definition keep_component (c : string) : bool :=
  negb (PyStr.is_empty c) && negb (String.eqb c ".").

(** [Path(s)]: empty components and ["."] are dropped. *)
Definition of_string (s : string) : Path :=
  mkPath (parse_root s) (List.filter keep_component (PyStr.split_on "/" s)).

(** [str(p)] *)
Definition to_string (p : Path) : string :=
  match root p, names p with
  | EmptyString, [] => "."
  | r, ns => r +:+ PyStr.join "/" ns
  end.

(** [p.name]: the last component, empty when there is none. *)
Definition name (p : Path) : string := List.last (names p) "".

(** [p.parent]: the path without its last component; a path without
    components is its own parent. *)
Definition parent (p : Path) : Path :=
  match names p with
  | [] => p
  | _ => mkPath (root p) (List.removelast (names p))
  end.

(** [os.path.join(a, b)] *)
Definition join (a b : string) : string :=
  if PyStr.startswith_char "/" b then b
  else if PyStr.is_empty a || PyStr.endswith_char "/" a then a +:+ b
  else a +:+ "/" +:+ b.

End PyPath.

Export PyPath (Path, mkPath).

(** ** Exceptions and results *)

(** The classes of exception the program names or meets; every other
    class is [OtherError] with its name. *)
Inductive exn_class : Type :=
| IndexError
| ValueError
| AssertionError
| AttributeError
| NotImplementedError
| CalledProcessError
| OtherError (cls : string).

(** An exception: its class and [str(e)]. *)
Record exn : Type := Exn { exn_cls : exn_class; exn_str : string }.

Inductive result (A : Type) : Type :=
| Ok (a : A)
| Raise (e : exn).

Arguments Ok {A} a.
Arguments Raise {A} e.

Definition is_CalledProcessError (e : exn) : bool :=
  match exn_cls e with CalledProcessError => true | _ => false end.

(** ** Integers from text: [int(s)] and [repr(s)] *)

Module PyInt.

Definition double_quote : ascii := ascii_of_nat 34.

Definition hex_digit (n : nat) : ascii :=
  ascii_of_nat (if (n <? 10)%nat then 48 + n else 87 + n).

(** One character of [repr(s)] inside the quotes [q]. *)
Definition escape_char (q c : ascii) : string :=
  let n := nat_of_ascii c in
  if Ascii.eqb c "\" then "\\"
  else if Ascii.eqb c q then String "\" (String q "")
  else if (n =? 9)%nat then "\t"
  else if (n =? 10)%nat then "\n"
  else if (n =? 13)%nat then "\r"
  else if (n <? 32)%nat || (n =? 127)%nat
       then String "\" (String "x" (String (hex_digit (n / 16)) (String (hex_digit (n mod 16)) "")))
  else String c "".

Fixpoint escape (q : ascii) (s : string) : string :=
  match s with
  | EmptyString => ""
  | String c s' => escape_char q c +:+ escape q s'
  end.

(** [repr(s)]: single quotes, unless [s] has a single quote and no
    double quote. *)
Definition repr (s : string) : string :=
  let q := if PyStr.contains "'" s && negb (PyStr.contains double_quote s)
           then double_quote else "'"%char in
  String q (escape q s +:+ String q "").

Definition is_digit (c : ascii) : bool :=
  let n := nat_of_ascii c in (48 <=? n)%nat && (n <=? 57)%nat.

(** The value of a run of decimal digits in which single underscores
    may separate digits.  [after_digit] tells whether the previous
    character was a digit. *)
Fixpoint digits_value (acc : Z) (after_digit : bool) (s : string) : option Z :=
  match s with
  | EmptyString => if after_digit then Some acc else None
  | String c s' =>
      if is_digit c
      then digits_value (10 * acc + (Z.of_nat (nat_of_ascii c) - 48)) true s'
      else if Ascii.eqb c "_" && after_digit then digits_value acc false s'
      else None
  end.

Definition literal_value (s : string) : option Z :=
  match PyStr.strip s with
  | String "+" r => digits_value 0 false r
  | String "-" r => Z.opp <$> digits_value 0 false r
  | t => digits_value 0 false t
  end.

(** [int(s)] in base 10. *)
Definition int (s : string) : result Z :=
  match literal_value s with
  | Some n => Ok n
  | None => Raise (Exn ValueError ("invalid literal for int() with base 10: " +:+ repr s))
  end.

End PyInt.

(** ** JSON values, as [response.json()] returns them *)

Inductive json : Type :=
| JNull
| JBool (b : bool)
| JInt (n : Z)
| JStr (s : string)
| JList (l : list json)
| JDict (d : list (string * json)).

(** The truth value Python gives a value in a condition. *)
Definition truthy (v : json) : bool :=
  match v with
  | JNull => false
  | JBool b => b
  | JInt n => negb (n =? 0)%Z
  | JStr s => negb (PyStr.is_empty s)
  | JList l => match l with [] => false | _ => true end
  | JDict d => match d with [] => false | _ => true end
  end.

Fixpoint assoc (k : string) (d : list (string * json)) : option json :=
  match d with
  | [] => None
  | (k', v) :: d' => if String.eqb k k' then Some v else assoc k d'
  end.

Definition type_name (v : json) : string :=
  match v with
  | JNull => "NoneType"
  | JBool _ => "bool"
  | JInt _ => "int"
  | JStr _ => "str"
  | JList _ => "list"
  | JDict _ => "dict"
  end.

(** [v.get(k)]: the entry of a dict, [None] when absent; any other
    value has no such method. *)
Definition json_get (k : string) (v : json) : result json :=
  match v with
  | JDict d => Ok (default JNull (assoc k d))
  | _ => Raise (Exn AttributeError
                  ("'" +:+ type_name v +:+ "' object has no attribute 'get'"))
  end.

(** The answer of [requests.get]: its status code and what [.json()]
    gives, an exception when the body is not JSON. *)
Record response : Type := Response { status_code : Z; json_body : result json }.

(** ** The world: file system, environment and the log of actions *)

(** The callbacks [main] registers. *)
Inductive callback : Type := cb_start | cb_help | cb_download_url.

(** [CommandHandler(cmd, f)] and
    [MessageHandler(filters.TEXT & ~filters.COMMAND, f)]. *)
Inductive handler : Type :=
| CommandHandler (cmd : string) (f : callback)
| MessageHandler_text_not_command (f : callback).

(** What the program does to the outside, one constructor per call. *)
Inductive event : Type :=
| ReplyText (text : string)
| ReplyAudio (path : string)
| Print (text : string)
| ExtractInfo (url : string) (download : bool)
| LibrosaLoad (path : string)
| PitchShift (n_steps : Z)
| SfWrite (path : string)
| OpenRb (path : string)
| SubprocessRun (args : list string)
| Getpass (prompt : string)
| HttpGet (url : string)
| BuildApp (token : string)
| AddHandler (h : handler)
| RunPolling.

Record state : Type := mkState {
  fs : gset string;
  environ : gmap string string;
  trace : list event
}.

Definition log (ev : event) (s : state) : state :=
  mkState (fs s) (environ s) (trace s ++ [ev]).

Definition with_fs (files : gset string) (s : state) : state :=
  mkState files (environ s) (trace s).

(** ** The monad of the program: state and exceptions *)

Definition M (A : Type) : Type := state -> result A * state.

Definition ret {A} (a : A) : M A := fun s => (Ok a, s).

Definition bind {A B} (m : M A) (k : A -> M B) : M B :=
  fun s =>
    match m s with
    | (Ok a, s') => k a s'
    | (Raise e, s') => (Raise e, s')
    end.

Definition raise {A} (e : exn) : M A := fun s => (Raise e, s).

(** [try: body / except C as e: handle e], where [catches] tells which
    exceptions are instances of [C]. *)
Definition try_except {A} (body : M A) (catches : exn -> bool) (handle : exn -> M A) : M A :=
  fun s =>
    match body s with
    | (Ok a, s') => (Ok a, s')
    | (Raise e, s') => if catches e then handle e s' else (Raise e, s')
    end.

(** [except Exception]: every exception of the model is an instance. *)
Definition any_Exception (e : exn) : bool := true.

Definition lift {A} (r : result A) : M A := fun s => (r, s).

(** An output action. *)
Definition emit (ev : event) : M unit := fun s => (Ok tt, log ev s).

(** A call that reads the world. *)
Definition ask {A} (f : state -> result A) : M A := fun s => (f s, s).

(** A call that may also create files. *)
Definition act {A} (f : state -> result A * gset string) : M A :=
  fun s => (fst (f s), with_fs (snd (f s)) s).

Declare Scope py_scope.
Delimit Scope py_scope with py.
Notation "x <- m ;; k" := (bind m (fun x => k))
  (at level 100, m at next level, right associativity) : py_scope.
Notation "m ;; k" := (bind m (fun _ => k))
  (at level 100, right associativity) : py_scope.
Local Open Scope py_scope.

(** [os.path.exists(path)] *)
Definition os_path_exists (path : string) : M bool :=
  fun s => (Ok (bool_decide (path ∈ fs s)), s).

(** [os.getenv(k)] *)
Definition os_getenv (k : string) : M (option string) :=
  fun s => (Ok (environ s !! k), s).

(** [l[i]] *)
Definition list_index {A} (l : list A) (i : nat) : M A :=
  match l !! i with
  | Some x => ret x
  | None => raise (Exn IndexError "list index out of range")
  end.

(** [assert c, msg] *)
Definition assert (c : bool) (msg : string) : M unit :=
  if c then ret tt else raise (Exn AssertionError msg).

(** ** The libraries the program calls *)

Record postprocessor : Type := Postprocessor {
  key : string;
  preferredcodec : string;
  preferredquality : string
}.

Record ydl_opts_t : Type := YdlOpts {
  format : string;
  postprocessors : list postprocessor;
  outtmpl : string;
  quiet : bool
}.

(** The answers of the outside world.  [info] is the metadata yt_dlp
    extracts, [samples] the array of an audio signal; a sample rate is
    an integer. *)
Record externals : Type := Externals {
  info : Type;
  samples : Type;
  (** [ydl.extract_info(url, download=False)] *)
  ydl_probe : ydl_opts_t -> string -> state -> result info;
  (** [ydl.extract_info(url, download=True)], and the files after it *)
  ydl_fetch : ydl_opts_t -> string -> state -> result info * gset string;
  (** [ydl.prepare_filename(info)] *)
  ydl_prepare_filename : ydl_opts_t -> info -> string;
  (** [librosa.load(path, sr=None)] *)
  librosa_load : string -> state -> result (samples * Z);
  (** [librosa.effects.pitch_shift(y, sr=sr, n_steps=n)] *)
  librosa_pitch_shift : samples -> Z -> Z -> state -> result samples;
  (** [sf.write(path, y, sr)], and the files after it *)
  sf_write : string -> samples -> Z -> state -> result unit * gset string;
  (** [open(path, "rb")] *)
  open_rb : string -> state -> result unit;
  (** [os.path.expanduser(path)] *)
  os_path_expanduser : string -> string;
  (** [getpass(prompt)] *)
  getpass_answer : string -> state -> result string;
  (** [subprocess.run(args, capture_output=True, text=True, check=True)
      .stdout] *)
  subprocess_stdout : list string -> state -> result string;
  (** [requests.get(url)] *)
  requests_answer : string -> state -> result response
}.

(** ** The program *)

Definition nl : string := String (ascii_of_nat 10) "".

Definition start_text : string :=
  "Send me a URL, and I'll download the audio for you!".

Definition help_text : string :=
  "Your messages should have the following format:" +:+ nl +:+ nl +:+
  "https://url.to.a.yt.video semitones(optional)" +:+ nl +:+ nl +:+
  "For instance:" +:+ nl +:+ nl +:+
  "'https://url.to.a.yt.video 1' will send you the video's audio shifted 1 semitone up." +:+ nl +:+ nl +:+
  "'https://url.to.a.yt.video -2' will send you the video's audio shifted 2 semitone down." +:+ nl +:+ nl +:+
  "'https://url.to.a.yt.video' will send you the video's original audio." +:+ nl +:+ nl.

Definition invalid_format_text : string :=
  "Invalid text format. It must be a URL only or a URL plus a number indicating the tone shift.".

Definition already_running_text : string := "Telegram bot is already running!".

Definition ready_text : string := "Ready ✅".

Definition getpass_prompt : string := "Please enter the login token: ".

Definition assert_text : string := "Querying Telegram Bot API failed.".

(** [f"https://api.telegram.org/bot{token}/getMe"] *)
Definition getMe_url (token : string) : string :=
  "https://api.telegram.org/bot" +:+ token +:+ "/getMe".

(** The options [download_audio] builds for [yt_dlp.YoutubeDL]. *)
Definition make_ydl_opts (output_path : string) : ydl_opts_t :=
  YdlOpts "bestaudio/best"
          [Postprocessor "FFmpegExtractAudio" "mp3" "192"]
          (output_path +:+ "/%(title)s")
          true.

(** [filename.rsplit('.', 1)[0] + ".mp3"] *)
Definition mp3_filename (filename : string) : string :=
  PyStr.rsplit1_head "." filename +:+ ".mp3".

(** The tag and the name of a shifted file:
    [f"(ST {'+' if semitones > 0 else '-'}{abs(semitones)}) {name}"]. *)
Definition shifted_name (semitones : Z) (name : string) : string :=
  "(ST " +:+ (if (0 <? semitones)%Z then "+" else "-") +:+
  PyStr.of_int (Z.abs semitones) +:+ ") " +:+ name.

(** [os.path.join(audio_file.parent.name, f"(ST ...) {audio_file.name}")] *)
Definition output_file_of (audio_file : Path) (semitones : Z) : string :=
  PyPath.join (PyPath.name (PyPath.parent audio_file))
              (shifted_name semitones (PyPath.name audio_file)).

Section Program.

Context (E : externals).

(** *** The calls into the libraries, each logged before it is made *)

Definition reply_text (text : string) : M unit := emit (ReplyText text).

Definition reply_audio (path : string) : M unit := emit (ReplyAudio path).

Definition print (text : string) : M unit := emit (Print text).

Definition extract_info (opts : ydl_opts_t) (url : string) (download : bool)
  : M (info E) :=
  emit (ExtractInfo url download);;
  if download then act (ydl_fetch E opts url) else ask (ydl_probe E opts url).

Definition load_audio (path : string) : M (samples E * Z) :=
  emit (LibrosaLoad path);; ask (librosa_load E path).

Definition pitch_shift (y : samples E) (sr n_steps : Z) : M (samples E) :=
  emit (PitchShift n_steps);; ask (librosa_pitch_shift E y sr n_steps).

Definition write_audio (path : string) (y : samples E) (sr : Z) : M unit :=
  emit (SfWrite path);; act (sf_write E path y sr).

Definition open_file (path : string) : M unit :=
  emit (OpenRb path);; ask (open_rb E path).

Definition getpass (prompt : string) : M string :=
  emit (Getpass prompt);; ask (getpass_answer E prompt).

Definition subprocess_run (args : list string) : M string :=
  emit (SubprocessRun args);; ask (subprocess_stdout E args).

Definition requests_get (url : string) : M response :=
  emit (HttpGet url);; ask (requests_answer E url).

(** *** [load_password] *)

Definition load_password (private_key_path token_path : string) : M string :=
  let private_key_path := os_path_expanduser E private_key_path in
  token_there <- os_path_exists token_path;;
  key_there <- os_path_exists private_key_path;;
  if negb token_there || negb key_there
  then
    (env_token <- os_getenv "TOKEN";;
     match env_token with
     | Some t => if PyStr.is_empty t then getpass getpass_prompt else ret t
     | None => getpass getpass_prompt
     end)
  else
    try_except
      (stdout <- subprocess_run ["age"; "-d"; "-i"; private_key_path; token_path];;
       ret (PyStr.strip stdout))
      is_CalledProcessError
      (fun e => raise (Exn NotImplementedError (exn_str e))).

(** *** [main] *)

Definition main : M unit :=
  token <- load_password "~/.ssh/id_rsa" "./token.enc";;
  query <- requests_get (getMe_url token);;
  assert (status_code query =? 200)%Z assert_text;;
  body <- lift (json_body query);;
  ok <- lift (json_get "ok" body);;
  if truthy ok
  then print already_running_text
  else
    (emit (BuildApp token);;
     emit (AddHandler (CommandHandler "start" cb_start));;
     emit (AddHandler (CommandHandler "help" cb_help));;
     emit (AddHandler (MessageHandler_text_not_command cb_download_url));;
     print ready_text;;
     emit RunPolling).

(** *** [help] and [start] *)

Definition help : M unit := reply_text help_text.

Definition start : M unit := reply_text start_text;; help.

(** *** [download_audio] *)

Definition download_audio (yt_url output_path : string) : M Path :=
  let ydl_opts := make_ydl_opts output_path in
  info <- extract_info ydl_opts yt_url false;;
  let filename := ydl_prepare_filename E ydl_opts info in
  let filename := mp3_filename filename in
  there <- os_path_exists filename;;
  if there then ret (PyPath.of_string filename)
  else (extract_info ydl_opts yt_url true;; ret (PyPath.of_string filename)).

(** *** [lower_pitch] *)

Definition lower_pitch (audio_file : Path) (semitones : Z) : M string :=
  if (semitones =? 0)%Z then ret (PyPath.to_string audio_file)
  else
    let output_file := output_file_of audio_file semitones in
    there <- os_path_exists output_file;;
    if there then ret output_file
    else
      (loaded <- load_audio (PyPath.to_string audio_file);;
       y_shifted <- pitch_shift (fst loaded) (snd loaded) semitones;;
       write_audio output_file y_shifted (snd loaded);;
       ret output_file).

(** *** [download_url] *)

(** Lines 107 and 108: the URL and the number of semitones. *)
Definition parse_request (parts : list string) : M (string * Z) :=
  url <- list_index parts 0;;
  semitones <- (if (length parts =? 2)%nat
                then (tok <- list_index parts 1;; lift (PyInt.int tok))
                else ret 0%Z);;
  ret (url, semitones).

(** Lines 110 to 116: download, notice, shift, send. *)
Definition serve_request (url : string) (semitones : Z) : M unit :=
  audio_path <- download_audio url "downloads";;
  reply_text ("Downloaded content: " +:+ PyPath.name audio_path);;
  processed_file <- lower_pitch audio_path semitones;;
  open_file processed_file;;
  reply_audio processed_file.

(** The body of the [try] block. *)
Definition guarded_body (parts : list string) : M unit :=
  request <- parse_request parts;;
  serve_request (fst request) (snd request).

(** The [except Exception as e] branch. *)
Definition report_error (e : exn) : M unit :=
  reply_text ("Error: " +:+ exn_str e).

Definition download_url (text : string) : M unit :=
  let parts := PyStr.split text in
  (if (2 <? length parts)%nat then reply_text invalid_format_text else ret tt);;
  try_except (guarded_body parts) any_Exception report_error.

End Program.

(** ** What the pipeline expects of the libraries

    Nothing they do removes a file; a download that succeeds leaves the
    file that the probe before it named; a write that succeeds leaves
    its file. *)
Record orderly (E : externals) : Prop := Orderly {
  fetch_keeps : forall opts url s, fs s ⊆ snd (ydl_fetch E opts url s);
  fetch_creates : forall opts url s i i',
    ydl_probe E opts url s = Ok i ->
    fst (ydl_fetch E opts url (log (ExtractInfo url true) s)) = Ok i' ->
    mp3_filename (ydl_prepare_filename E opts i)
      ∈ snd (ydl_fetch E opts url (log (ExtractInfo url true) s));
  write_keeps : forall path y sr s, fs s ⊆ snd (sf_write E path y sr s);
  write_creates : forall path y sr s,
    fst (sf_write E path y sr s) = Ok tt ->
    path ∈ snd (sf_write E path y sr s)
}.

(** ** A small world to run the program in

    One video, titled [Song], that downloads and converts without
    trouble; the answers of the decryption tool and of the identity
    endpoint are parameters. *)

Module Demo.

Definition not_found (path : string) : exn :=
  Exn (OtherError "FileNotFoundError")
      ("[Errno 2] No such file or directory: " +:+ PyInt.repr path).

Definition unavailable : exn :=
  Exn (OtherError "DownloadError") "ERROR: Video unavailable".

Definition probe (opts : ydl_opts_t) (url : string) (s : state) : result string :=
  if String.eqb url "https://gone" then Raise unavailable else Ok "Song".

(** The template ends in the nine characters of [%(title)s]. *)
Definition prepare (opts : ydl_opts_t) (title : string) : string :=
  String.substring 0 (String.length (outtmpl opts) - 9) (outtmpl opts) +:+ title.

Definition fetch (opts : ydl_opts_t) (url : string) (s : state)
  : result string * gset string :=
  (Ok "Song", {[ mp3_filename (prepare opts "Song") ]} ∪ fs s).

Definition load (path : string) (s : state) : result (list Z * Z) :=
  if bool_decide (path ∈ fs s) then Ok ([0; 1; 0; -1]%Z, 44100%Z)
  else Raise (not_found path).

Definition shift (y : list Z) (sr n_steps : Z) (s : state) : result (list Z) :=
  Ok y.

Definition write (path : string) (y : list Z) (sr : Z) (s : state)
  : result unit * gset string :=
  (Ok tt, {[ path ]} ∪ fs s).

Definition open (path : string) (s : state) : result unit :=
  if bool_decide (path ∈ fs s) then Ok tt else Raise (not_found path).

Definition expanduser (path : string) : string :=
  match path with
  | String "~" rest => "/home/bot" +:+ rest
  | _ => path
  end.

Definition typed (prompt : string) (s : state) : result string := Ok "typed-token".

Definition world (stdout : result string) (answer : result response) : externals :=
  Externals string (list Z) probe fetch prepare load shift write open
            expanduser typed (fun _ _ => stdout) (fun _ _ => answer).

Definition alive : response := Response 200 (Ok (JDict [("ok", JBool true)])).

Definition plain : externals := world (Ok "") (Ok alive).

Definition initial : state := mkState ∅ ∅ [].

(** An audio file two directories deep. *)
Definition nested : state :=
  mkState {[ "music/downloads/song.mp3" ]} ∅ [].

(** Both credential files in place. *)
Definition with_key : state :=
  mkState ({[ "./token.enc" ]} ∪ {[ "/home/bot/.ssh/id_rsa" ]}) ∅ [].

(** No credential file, the token in the environment. *)
Definition with_env : state :=
  mkState ∅ {[ "TOKEN" := "env-token" ]} [].

End Demo.

(** ** Reading the log *)

Definition is_audio (ev : event) : bool :=
  match ev with ReplyAudio _ => true | _ => false end.

(** A stretch of the log in which no audio is sent. *)
Definition silent (l : list event) : bool :=
  forallb (fun ev => negb (is_audio ev)) l.

(** * Properties *)

(** ** The monad *)

Lemma bind_ok {A B} (m : M A) (k : A -> M B) s a s' :
  m s = (Ok a, s') -> bind m k s = k a s'.
Proof. intros H. unfold bind. now rewrite H. Qed.

Lemma bind_raise {A B} (m : M A) (k : A -> M B) s e s' :
  m s = (Raise e, s') -> bind m k s = (Raise e, s').
Proof. intros H. unfold bind. now rewrite H. Qed.


Lemma try_except_caught {A} (body : M A) catches handle s e s' :
  body s = (Raise e, s') -> catches e = true ->
  try_except body catches handle s = handle e s'.
Proof. intros H Hc. unfold try_except. now rewrite H, Hc. Qed.

Lemma try_except_passed {A} (body : M A) catches handle s e s' :
  body s = (Raise e, s') -> catches e = false ->
  try_except body catches handle s = (Raise e, s').
Proof. intros H Hc. unfold try_except. now rewrite H, Hc. Qed.

Lemma os_path_exists_true path s :
  path ∈ fs s -> os_path_exists path s = (Ok true, s).
Proof. intros H. unfold os_path_exists. now rewrite bool_decide_eq_true_2. Qed.

Lemma os_path_exists_false path s :
  path ∉ fs s -> os_path_exists path s = (Ok false, s).
Proof. intros H. unfold os_path_exists. now rewrite bool_decide_eq_false_2. Qed.

(** ** [str.strip] *)







(** ** File names *)

Lemma before_last_absent sep s :
  PyStr.contains sep s = false -> PyStr.before_last sep s = None.
Proof.
  induction s as [|c s IH]; simpl; [reflexivity|].
  intros H. apply orb_false_iff in H as [Hc Hs].
  now rewrite (IH Hs), Hc.
Qed.

Lemma before_last_found sep stem ext :
  PyStr.contains sep ext = false ->
  PyStr.before_last sep (stem +:+ String sep ext) = Some stem.
Proof.
  intros Hext. induction stem as [|c stem IH]; simpl.
  - now rewrite (before_last_absent _ _ Hext), Ascii.eqb_refl.
  - now rewrite IH.
Qed.

(** A name with an extension has it replaced. *)
Lemma mp3_filename_extension stem ext :
  PyStr.contains "." ext = false ->
  mp3_filename (stem +:+ "." +:+ ext) = stem +:+ ".mp3".
Proof.
  intros Hext. unfold mp3_filename, PyStr.rsplit1_head.
  change (stem +:+ "." +:+ ext) with (stem +:+ String "." ext).
  now rewrite before_last_found.
Qed.

(** A name without a dot has [.mp3] added. *)
Lemma mp3_filename_no_dot f :
  PyStr.contains "." f = false -> mp3_filename f = f +:+ ".mp3".
Proof.
  intros H. unfold mp3_filename, PyStr.rsplit1_head.
  now rewrite before_last_absent.
Qed.

Lemma shifted_name_up n name :
  (0 < n)%Z -> shifted_name n name = "(ST +" +:+ PyStr.of_int n +:+ ") " +:+ name.
Proof.
  intros H. unfold shifted_name.
  destruct (Z.ltb_spec 0 n); [|lia]. now rewrite Z.abs_eq by lia.
Qed.

Lemma shifted_name_down n name :
  (n < 0)%Z -> shifted_name n name = "(ST -" +:+ PyStr.of_int (- n) +:+ ") " +:+ name.
Proof.
  intros H. unfold shifted_name.
  destruct (Z.ltb_spec 0 n); [lia|]. now rewrite Z.abs_neq by lia.
Qed.

(** When the audio file sits in one relative directory, as the files of
    [downloads/] do, the shifted file is put next to it. *)
Lemma output_file_of_flat dir name n :
  PyStr.is_empty dir = false -> PyStr.endswith_char "/" dir = false ->
  output_file_of (mkPath "" [dir; name]) n = dir +:+ "/" +:+ shifted_name n name.
Proof.
  intros Hd Hs. unfold output_file_of.
  change (PyPath.name (PyPath.parent (mkPath "" [dir; name]))) with dir.
  change (PyPath.name (mkPath "" [dir; name])) with name.
  unfold PyPath.join.
  now rewrite Hd, Hs.
Qed.

(** ** [start] and [help] *)

(** C9: on [/start] the handler sends the introduction, one line of
    text, and then runs the help handler on what follows: the log grows
    by the introduction and, right after it, the usage text of [/help],
    and nothing else happens. *)
Theorem start_replies_intro_then_help (s : state) :
  start s = help (log (ReplyText start_text) s) /\
  start s = (Ok tt, mkState (fs s) (environ s)
                              (trace s ++ [ReplyText start_text; ReplyText help_text])) /\
  PyStr.contains (ascii_of_nat 10) start_text = false.
Proof.
  split; [reflexivity|]. split; [|reflexivity].
  unfold start, help, reply_text, bind, emit, log. simpl.
  now rewrite <- app_assoc.
Qed.

(** ** [lower_pitch] *)

(** C3: with offset 0 the pitch-shift stage returns the path of the
    audio file itself and leaves the state as it was: nothing is
    loaded, transformed or written, and the set of files is the same. *)
Theorem lower_pitch_zero (E : externals) (p : Path) (s : state) :
  lower_pitch E p 0 s = (Ok (PyPath.to_string p), s).
Proof. reflexivity. Qed.

(** C2, at a file two directories deep: the tag carries the sign and the
    magnitude of the offset, but the shifted file is joined to the name
    of the parent directory only.  [lower_pitch] loads the audio file
    from [music/downloads], writes the shifted file to [downloads] and
    returns that path, which is not in the directory of the audio
    file. *)
Theorem output_file_leaves_directory :
  let p := PyPath.of_string "music/downloads/song.mp3" in
  let run := lower_pitch Demo.plain p 2 Demo.nested in
  fst run = Ok "downloads/(ST +2) song.mp3" /\
  trace (snd run) = [LibrosaLoad "music/downloads/song.mp3"; PitchShift 2;
                     SfWrite "downloads/(ST +2) song.mp3"] /\
  PyPath.parent p = PyPath.of_string "music/downloads" /\
  PyPath.parent (PyPath.of_string "downloads/(ST +2) song.mp3")
    = PyPath.of_string "downloads" /\
  PyPath.parent (PyPath.of_string "downloads/(ST +2) song.mp3") <> PyPath.parent p.
Proof.
  cbv zeta. repeat split; try (vm_compute; reflexivity).
  vm_compute. discriminate.
Qed.

(** ** [download_url] *)

(** C10: a text without any token makes the handler answer with one
    error text, that of the failed access to the first token; it
    returns normally, and nothing is probed, downloaded, shifted,
    opened or sent as audio. *)
Theorem download_url_no_token (E : externals) (text : string) (s : state) :
  PyStr.split text = [] ->
  download_url E text s = (Ok tt, log (ReplyText "Error: list index out of range") s).
Proof.
  intros H. unfold download_url. rewrite H. reflexivity.
Qed.

Lemma download_url_no_token_witness :
  PyStr.split "   " = [] /\
  download_url Demo.plain "   " Demo.initial =
    (Ok tt, log (ReplyText "Error: list index out of range") Demo.initial).
Proof.
  split; [reflexivity|].
  apply (download_url_no_token Demo.plain "   " Demo.initial). reflexivity.
Defined.

(** C6 as stated fails: of three tokens the second is not read.  The
    text [https://v 5 x] splits in three, its second token is the
    integer 5, and the handler serves the URL with offset 0, which is
    not what serving it with offset 5 does. *)
Lemma download_url_ignores_second_token :
  let text := "https://v 5 x" in
  PyStr.split text = ["https://v"; "5"; "x"] /\
  PyInt.int "5" = Ok 5%Z /\
  download_url Demo.plain text Demo.initial =
    (reply_text invalid_format_text;;
     try_except (serve_request Demo.plain "https://v" 0) any_Exception report_error)
      Demo.initial /\
  download_url Demo.plain text Demo.initial <>
    (reply_text invalid_format_text;;
     try_except (serve_request Demo.plain "https://v" 5) any_Exception report_error)
      Demo.initial.
Proof.
  cbv zeta. repeat split; try reflexivity.
  intros H. apply (f_equal (fun r => List.length (trace (snd r)))) in H.
  vm_compute in H. discriminate.
Qed.

(** C6, amended: a text of more than two tokens gets the validation
    reply first, and is then served with its first token as the URL and
    with offset 0. *)
Theorem download_url_many_tokens (E : externals) (text : string) (s : state) :
  (2 < length (PyStr.split text))%nat ->
  exists url,
    PyStr.split text !! 0%nat = Some url /\
    download_url E text s =
      (reply_text invalid_format_text;;
       try_except (serve_request E url 0) any_Exception report_error) s.
Proof.
  intros H. unfold download_url.
  destruct (PyStr.split text) as [|url [|tok [|x rest]]]; simpl in H; try lia.
  exists url. split; [reflexivity|].
  reflexivity.
Qed.

Lemma download_url_many_tokens_witness :
  (2 < length (PyStr.split "https://v 5 x"))%nat /\
  exists url,
    PyStr.split "https://v 5 x" !! 0%nat = Some url /\
    download_url Demo.plain "https://v 5 x" Demo.initial =
      (reply_text invalid_format_text;;
       try_except (serve_request Demo.plain url 0) any_Exception report_error)
        Demo.initial.
Proof.
  split; [vm_compute; lia|].
  apply (download_url_many_tokens Demo.plain "https://v 5 x" Demo.initial).
  vm_compute. lia.
Defined.

(** ** [download_audio] *)

Section Download.

Context (E : externals) (url out : string).

Let opts := make_ydl_opts out.
Let probed (s : state) : state := log (ExtractInfo url false) s.

Lemma download_audio_probe_fails s e :
  ydl_probe E opts url (probed s) = Raise e ->
  download_audio E url out s = (Raise e, probed s).
Proof.
  intros H. unfold download_audio, extract_info, bind, emit, ask.
  fold opts. fold (probed s). now rewrite H.
Qed.

Lemma download_audio_cached s i :
  ydl_probe E opts url (probed s) = Ok i ->
  mp3_filename (ydl_prepare_filename E opts i) ∈ fs s ->
  download_audio E url out s =
    (Ok (PyPath.of_string (mp3_filename (ydl_prepare_filename E opts i))), probed s).
Proof.
  intros H Hin. unfold download_audio, extract_info, bind, emit, ask.
  fold opts. fold (probed s). rewrite H.
  now rewrite os_path_exists_true.
Qed.

Lemma download_audio_fresh s i :
  ydl_probe E opts url (probed s) = Ok i ->
  mp3_filename (ydl_prepare_filename E opts i) ∉ fs s ->
  let s2 := log (ExtractInfo url true) (probed s) in
  download_audio E url out s =
    (match fst (ydl_fetch E opts url s2) with
     | Ok _ => Ok (PyPath.of_string (mp3_filename (ydl_prepare_filename E opts i)))
     | Raise e => Raise e
     end,
     with_fs (snd (ydl_fetch E opts url s2)) s2).
Proof.
  intros H Hout. cbv zeta.
  unfold download_audio, extract_info, bind, emit, ask, act.
  fold opts. fold (probed s). rewrite H.
  rewrite os_path_exists_false by assumption.
  now destruct (fst (ydl_fetch E opts url (log (ExtractInfo url true) (probed s)))).
Qed.

(** Whatever happens, the probe is the first thing the stage does. *)
Lemma download_audio_probe_first s :
  exists rest,
    trace (snd (download_audio E url out s)) = (trace s ++ ExtractInfo url false :: rest)%list.
Proof.
  destruct (ydl_probe E opts url (probed s)) as [i|e] eqn:Hp.
  - destruct (decide (mp3_filename (ydl_prepare_filename E opts i) ∈ fs s)) as [Hin|Hout].
    + rewrite (download_audio_cached s i Hp Hin). now exists [].
    + rewrite (download_audio_fresh s i Hp Hout). exists [ExtractInfo url true].
      simpl. now rewrite <- app_assoc.
  - rewrite (download_audio_probe_fails s e Hp). now exists [].
Qed.

End Download.

(** C7: the download stage starts with the probe that does not
    download.  With the metadata [i] it answers, the expected file is
    the prepared name with [.mp3] for its extension ([.mp3] is added
    to a name that has none).  If that file exists, its path is
    returned at once: the probe is all that was done.  If not, the
    download is made right after the probe, and when it succeeds the
    same path is returned. *)
Theorem download_audio_probe_then_reuse (E : externals) (url out : string) (s : state) :
  let opts := make_ydl_opts out in
  let s1 := log (ExtractInfo url false) s in
  let s2 := log (ExtractInfo url true) s1 in
  (exists rest,
      trace (snd (download_audio E url out s)) = (trace s ++ ExtractInfo url false :: rest)%list) /\
  (forall i,
      ydl_probe E opts url s1 = Ok i ->
      let filename := mp3_filename (ydl_prepare_filename E opts i) in
      (filename ∈ fs s ->
       download_audio E url out s = (Ok (PyPath.of_string filename), s1)) /\
      (filename ∉ fs s ->
       download_audio E url out s =
         (match fst (ydl_fetch E opts url s2) with
          | Ok _ => Ok (PyPath.of_string filename)
          | Raise e => Raise e
          end,
          with_fs (snd (ydl_fetch E opts url s2)) s2))) /\
  (forall stem ext,
      PyStr.contains "." ext = false ->
      mp3_filename (stem +:+ "." +:+ ext) = stem +:+ ".mp3") /\
  (forall name,
      PyStr.contains "." name = false ->
      mp3_filename name = name +:+ ".mp3").
Proof.
  cbv zeta. split; [apply download_audio_probe_first|]. split; [|split].
  - intros i Hp. split.
    + now apply download_audio_cached.
    + now apply download_audio_fresh.
  - apply mp3_filename_extension.
  - apply mp3_filename_no_dot.
Qed.

Lemma download_audio_probe_then_reuse_witness :
  let s1 := log (ExtractInfo "https://v" false) Demo.initial in
  let s2 := log (ExtractInfo "https://v" true) s1 in
  Demo.probe (make_ydl_opts "downloads") "https://v" s1 = Ok "Song" /\
  ("downloads/Song.mp3" ∉ fs Demo.initial) /\
  download_audio Demo.plain "https://v" "downloads" Demo.initial =
    (Ok (PyPath.of_string "downloads/Song.mp3"),
     with_fs ({[ "downloads/Song.mp3" ]} ∪ ∅) s2) /\
  mp3_filename ("downloads/Song" +:+ "." +:+ "webm") = "downloads/Song.mp3".
Proof.
  cbv zeta. split; [reflexivity|]. split; [apply not_elem_of_empty|]. split.
  - apply (proj2 (proj1 (proj2 (download_audio_probe_then_reuse
             Demo.plain "https://v" "downloads" Demo.initial)) "Song" eq_refl)).
    apply not_elem_of_empty.
  - apply (proj1 (proj2 (proj2 (download_audio_probe_then_reuse
             Demo.plain "https://v" "downloads" Demo.initial)))).
    reflexivity.
Defined.

(** ** [download_url], continued *)

(** The handler is the guarded region under [except Exception], started
    after the validation reply if there was one. *)
Lemma download_url_run (E : externals) (text : string) (s : state) :
  download_url E text s =
    try_except (guarded_body E (PyStr.split text)) any_Exception report_error
      (if (2 <? length (PyStr.split text))%nat
       then log (ReplyText invalid_format_text) s else s).
Proof.
  unfold download_url. now destruct (2 <? length (PyStr.split text))%nat.
Qed.

(** Some of the failures the handler reports: a second token that is
    not an integer, a probe that fails, a download that fails. *)
Lemma download_url_reports_integer (E : externals) text url tok e s :
  PyStr.split text = [url; tok] ->
  PyInt.int tok = Raise e ->
  download_url E text s = (Ok tt, log (ReplyText ("Error: " +:+ exn_str e)) s).
Proof.
  intros Hs Hi. rewrite download_url_run, Hs. simpl.
  erewrite try_except_caught; [reflexivity| |reflexivity].
  unfold guarded_body, parse_request, bind, list_index, lift, ret. simpl.
  now rewrite Hi.
Qed.

Lemma download_url_reports_probe (E : externals) text url e s :
  PyStr.split text = [url] ->
  ydl_probe E (make_ydl_opts "downloads") url (log (ExtractInfo url false) s) = Raise e ->
  download_url E text s =
    (Ok tt, log (ReplyText ("Error: " +:+ exn_str e)) (log (ExtractInfo url false) s)).
Proof.
  intros Hs Hp. rewrite download_url_run, Hs. simpl.
  erewrite try_except_caught; [reflexivity| |reflexivity].
  unfold guarded_body, parse_request, serve_request, list_index. simpl.
  unfold bind at 1. unfold bind at 1. unfold bind at 1. simpl.
  unfold bind at 1.
  now rewrite (download_audio_probe_fails E url "downloads" s e Hp).
Qed.

Lemma download_url_reports_download (E : externals) text url i e s :
  PyStr.split text = [url] ->
  let opts := make_ydl_opts "downloads" in
  let s1 := log (ExtractInfo url false) s in
  let s2 := log (ExtractInfo url true) s1 in
  ydl_probe E opts url s1 = Ok i ->
  mp3_filename (ydl_prepare_filename E opts i) ∉ fs s ->
  fst (ydl_fetch E opts url s2) = Raise e ->
  download_url E text s =
    (Ok tt, log (ReplyText ("Error: " +:+ exn_str e))
                (with_fs (snd (ydl_fetch E opts url s2)) s2)).
Proof.
  cbv zeta. intros Hs Hp Hout Hf. rewrite download_url_run, Hs. simpl.
  erewrite try_except_caught; [reflexivity| |reflexivity].
  unfold guarded_body, parse_request, serve_request, list_index. simpl.
  unfold bind at 1. unfold bind at 1. unfold bind at 1. simpl.
  unfold bind at 1.
  rewrite (download_audio_fresh E url "downloads" s i Hp Hout). now rewrite Hf.
Qed.



(** ** The two stages, run twice *)

Section Twice.

Context (E : externals) (HE : orderly E).

Lemma download_audio_leaves_file url out s a s' :
  download_audio E url out s = (Ok a, s') ->
  exists i,
    ydl_probe E (make_ydl_opts out) url (log (ExtractInfo url false) s) = Ok i /\
    a = PyPath.of_string (mp3_filename (ydl_prepare_filename E (make_ydl_opts out) i)) /\
    mp3_filename (ydl_prepare_filename E (make_ydl_opts out) i) ∈ fs s'.
Proof.
  intros Hrun.
  destruct (ydl_probe E (make_ydl_opts out) url (log (ExtractInfo url false) s))
    as [i|e] eqn:Hp.
  - exists i. split; [reflexivity|].
    destruct (decide (mp3_filename (ydl_prepare_filename E (make_ydl_opts out) i) ∈ fs s))
      as [Hin|Hout].
    + rewrite (download_audio_cached E url out s i Hp Hin) in Hrun.
      injection Hrun as <- <-. now split.
    + rewrite (download_audio_fresh E url out s i Hp Hout) in Hrun.
      destruct (fst (ydl_fetch E (make_ydl_opts out) url
                       (log (ExtractInfo url true) (log (ExtractInfo url false) s))))
        as [i'|e] eqn:Hf; [|discriminate].
      injection Hrun as <- <-. split; [reflexivity|].
      apply (fetch_creates E HE _ _ _ i i' Hp Hf).
  - rewrite (download_audio_probe_fails E url out s e Hp) in Hrun. discriminate.
Qed.

Lemma lower_pitch_cached a n s :
  n <> 0%Z -> output_file_of a n ∈ fs s ->
  lower_pitch E a n s = (Ok (output_file_of a n), s).
Proof.
  intros Hn Hin. unfold lower_pitch.
  destruct (Z.eqb_spec n 0); [contradiction|].
  unfold bind. now rewrite os_path_exists_true.
Qed.

Lemma lower_pitch_leaves_file a n s p s' :
  n <> 0%Z -> lower_pitch E a n s = (Ok p, s') ->
  p = output_file_of a n /\ output_file_of a n ∈ fs s' /\ fs s ⊆ fs s'.
Proof.
  intros Hn Hrun.
  destruct (decide (output_file_of a n ∈ fs s)) as [Hin|Hout].
  - rewrite (lower_pitch_cached a n s Hn Hin) in Hrun.
    injection Hrun as <- <-. now repeat split.
  - unfold lower_pitch in Hrun.
    destruct (Z.eqb_spec n 0); [contradiction|].
    unfold bind at 1 in Hrun. rewrite os_path_exists_false in Hrun by assumption.
    unfold load_audio, pitch_shift, write_audio, bind, emit, ask, act, ret in Hrun.
    destruct (librosa_load E _ _) as [[y sr]|e]; [|discriminate]. simpl in Hrun.
    destruct (librosa_pitch_shift E _ _ _ _) as [y'|e]; [|discriminate].
    match type of Hrun with
    | context [sf_write E ?path ?y ?sr ?st] =>
        pose proof (write_keeps E HE path y sr st) as Hk;
        pose proof (write_creates E HE path y sr st) as Hc;
        destruct (sf_write E path y sr st) as [[[]|e] files]
    end; [|discriminate].
    injection Hrun as <- <-. simpl in *.
    split; [reflexivity|]. split; [now apply Hc|exact Hk].
Qed.

(** C4: run the download stage and then the pitch-shift stage, both
    with success, and later run them again for the same URL and the
    same offset.  If the libraries are orderly, no file was removed
    in between and the probe answers as it did the first time, then
    the second run returns the same audio path and the same output
    path; its download stage does the probe and nothing else, and its
    pitch-shift stage does nothing at all, so that no download, load,
    transform or write takes place. *)
Theorem pipeline_twice url out n s0 a1 s1 s1' p1 s2 s3 :
  download_audio E url out s0 = (Ok a1, s1) ->
  fs s1 ⊆ fs s1' ->
  lower_pitch E a1 n s1' = (Ok p1, s2) ->
  fs s2 ⊆ fs s3 ->
  ydl_probe E (make_ydl_opts out) url (log (ExtractInfo url false) s3) =
    ydl_probe E (make_ydl_opts out) url (log (ExtractInfo url false) s0) ->
  download_audio E url out s3 = (Ok a1, log (ExtractInfo url false) s3) /\
  (forall s4, fs s2 ⊆ fs s4 -> lower_pitch E a1 n s4 = (Ok p1, s4)).
Proof.
  intros Hd H1 Hl H3 Hsame.
  destruct (download_audio_leaves_file _ _ _ _ _ Hd) as (i & Hp & -> & Hfile).
  assert (Hkeep : fs s1' ⊆ fs s2).
  { destruct (Z.eq_dec n 0) as [->|Hn].
    - now injection Hl as <- <-.
    - now destruct (lower_pitch_leaves_file _ _ _ _ _ Hn Hl) as (_ & _ & ?). }
  split.
  - rewrite <- Hsame in Hp.
    apply (download_audio_cached E url out s3 i Hp). set_solver.
  - intros s4 H4. destruct (Z.eq_dec n 0) as [->|Hn].
    + injection Hl as <- <-. reflexivity.
    + destruct (lower_pitch_leaves_file _ _ _ _ _ Hn Hl) as (-> & Hout & _).
      apply lower_pitch_cached; [assumption|set_solver].
Qed.

End Twice.

Lemma demo_orderly stdout answer : orderly (Demo.world stdout answer).
Proof.
  constructor; simpl; unfold Demo.fetch, Demo.write, Demo.probe; simpl.
  - intros. set_solver.
  - intros opts url s i i' Hp _.
    destruct (String.eqb url "https://gone"); [discriminate|].
    injection Hp as <-. set_solver.
  - intros. set_solver.
  - intros. set_solver.
Qed.

Lemma pipeline_twice_witness :
  let E := Demo.plain in
  let a1 := PyPath.of_string "downloads/Song.mp3" in
  let p1 := "downloads/(ST -2) Song.mp3" in
  let s1 := snd (download_audio E "https://v" "downloads" Demo.initial) in
  let s2 := snd (lower_pitch E a1 (-2) s1) in
  download_audio E "https://v" "downloads" s2 = (Ok a1, log (ExtractInfo "https://v" false) s2) /\
  (forall s4, fs s2 ⊆ fs s4 -> lower_pitch E a1 (-2) s4 = (Ok p1, s4)).
Proof.
  cbv zeta.
  apply (pipeline_twice Demo.plain (demo_orderly _ _) "https://v" "downloads" (-2)
           Demo.initial (PyPath.of_string "downloads/Song.mp3")
           (snd (download_audio Demo.plain "https://v" "downloads" Demo.initial))
           (snd (download_audio Demo.plain "https://v" "downloads" Demo.initial))
           "downloads/(ST -2) Song.mp3"
           (snd (lower_pitch Demo.plain (PyPath.of_string "downloads/Song.mp3") (-2)
                   (snd (download_audio Demo.plain "https://v" "downloads" Demo.initial))))
           (snd (lower_pitch Demo.plain (PyPath.of_string "downloads/Song.mp3") (-2)
                   (snd (download_audio Demo.plain "https://v" "downloads" Demo.initial))))).
  - vm_compute. reflexivity.
  - reflexivity.
  - vm_compute. reflexivity.
  - reflexivity.
  - reflexivity.
Defined.

(** ** [load_password] *)

Section Credential.

Context (E : externals) (private_key_path token_path : string).

Let key := os_path_expanduser E private_key_path.
Let args := ["age"; "-d"; "-i"; key; token_path].

Lemma load_password_decrypts s :
  token_path ∈ fs s -> key ∈ fs s ->
  load_password E private_key_path token_path s =
    try_except
      (stdout <- subprocess_run E args;; ret (PyStr.strip stdout))
      is_CalledProcessError
      (fun e => raise (Exn NotImplementedError (exn_str e))) s.
Proof.
  intros Ht Hk. unfold load_password. fold key. fold args.
  unfold bind at 1. rewrite (os_path_exists_true _ _ Ht).
  unfold bind at 1. rewrite (os_path_exists_true _ _ Hk).
  reflexivity.
Qed.

Lemma load_password_falls_back s :
  ~ (token_path ∈ fs s /\ key ∈ fs s) ->
  load_password E private_key_path token_path s =
    match environ s !! "TOKEN" with
    | Some t => if PyStr.is_empty t then getpass E getpass_prompt s else (Ok t, s)
    | None => getpass E getpass_prompt s
    end.
Proof.
  intros Hnot. unfold load_password. fold key.
  unfold bind at 1, os_path_exists at 1.
  unfold bind at 1, os_path_exists at 1.
  assert (Hb : negb (bool_decide (token_path ∈ fs s))
               || negb (bool_decide (key ∈ fs s)) = true).
  { do 2 case_bool_decide; simpl; try reflexivity. tauto. }
  rewrite Hb. unfold bind, os_getenv.
  destruct (environ s !! "TOKEN") as [t|]; [|reflexivity].
  now destruct (PyStr.is_empty t).
Qed.

End Credential.

(** C8: [load_password] resolves the token in this order.  When the
    encrypted token and the private key both exist, it runs the
    decryption tool on them: on success it returns the output with the
    whitespace around it stripped, and on failure it raises an
    exception that carries the description of the failure, a
    [NotImplementedError] when the tool exited with an error status.
    When one of the files is missing, it returns the environment
    variable [TOKEN] if that is set and not empty, and asks the
    operator otherwise. *)
Theorem load_password_order (E : externals) (private_key_path token_path : string) (s : state) :
  let key := os_path_expanduser E private_key_path in
  let args := ["age"; "-d"; "-i"; key; token_path] in
  let s' := log (SubprocessRun args) s in
  (token_path ∈ fs s -> key ∈ fs s ->
   (forall stdout,
       subprocess_stdout E args s' = Ok stdout ->
       load_password E private_key_path token_path s = (Ok (PyStr.strip stdout), s')) /\
   (forall e,
       subprocess_stdout E args s' = Raise e ->
       exists e',
         load_password E private_key_path token_path s = (Raise e', s') /\
         exn_str e' = exn_str e /\
         (is_CalledProcessError e = true -> exn_cls e' = NotImplementedError))) /\
  (~ (token_path ∈ fs s /\ key ∈ fs s) ->
   (forall t,
       environ s !! "TOKEN" = Some t -> t <> "" ->
       load_password E private_key_path token_path s = (Ok t, s)) /\
   (environ s !! "TOKEN" = None \/ environ s !! "TOKEN" = Some "" ->
    load_password E private_key_path token_path s = getpass E getpass_prompt s)).
Proof.
  cbv zeta. split.
  - intros Ht Hk. rewrite (load_password_decrypts E _ _ s Ht Hk).
    unfold try_except, subprocess_run, bind, emit, ask, ret, raise. split.
    + intros stdout H. now rewrite H.
    + intros e H. rewrite H.
      destruct (is_CalledProcessError e) eqn:Hc.
      * eexists. split; [reflexivity|]. now split.
      * exists e. split; [reflexivity|]. split; [reflexivity|discriminate].
  - intros Hnot. rewrite (load_password_falls_back E _ _ s Hnot). split.
    + intros t -> Ht. destruct t; [contradiction|reflexivity].
    + intros [-> | ->]; reflexivity.
Qed.

Lemma load_password_order_witness :
  let broken := Exn CalledProcessError "Command '['age', '-d']' returned non-zero exit status 1." in
  let nl := String (ascii_of_nat 10) "" in
  load_password (Demo.world (Ok ("123:abc" +:+ nl)) (Ok Demo.alive))
                "~/.ssh/id_rsa" "./token.enc" Demo.with_key
  = (Ok "123:abc",
     log (SubprocessRun ["age"; "-d"; "-i"; "/home/bot/.ssh/id_rsa"; "./token.enc"])
         Demo.with_key) /\
  (exists e',
      load_password (Demo.world (Raise broken) (Ok Demo.alive))
                    "~/.ssh/id_rsa" "./token.enc" Demo.with_key
      = (Raise e',
         log (SubprocessRun ["age"; "-d"; "-i"; "/home/bot/.ssh/id_rsa"; "./token.enc"])
             Demo.with_key) /\
      exn_str e' = exn_str broken /\
      (is_CalledProcessError broken = true -> exn_cls e' = NotImplementedError)) /\
  load_password Demo.plain "~/.ssh/id_rsa" "./token.enc" Demo.with_env
  = (Ok "env-token", Demo.with_env) /\
  load_password Demo.plain "~/.ssh/id_rsa" "./token.enc" Demo.initial
  = getpass Demo.plain getpass_prompt Demo.initial.
Proof.
  cbv zeta. split; [|split; [|split]].
  - apply (proj1 (proj1 (load_password_order
                           (Demo.world (Ok ("123:abc" +:+ String (ascii_of_nat 10) ""))
                                       (Ok Demo.alive))
                           "~/.ssh/id_rsa" "./token.enc" Demo.with_key)
                    ltac:(compute_done) ltac:(compute_done))
             ("123:abc" +:+ String (ascii_of_nat 10) "") eq_refl).
  - apply (proj2 (proj1 (load_password_order
                           (Demo.world (Raise (Exn CalledProcessError
                              "Command '['age', '-d']' returned non-zero exit status 1."))
                                       (Ok Demo.alive))
                           "~/.ssh/id_rsa" "./token.enc" Demo.with_key)
                    ltac:(compute_done) ltac:(compute_done))
             _ eq_refl).
  - apply (proj1 (proj2 (load_password_order Demo.plain "~/.ssh/id_rsa" "./token.enc"
                           Demo.with_env)
                    ltac:(compute_done))
             "env-token" eq_refl).
    discriminate.
  - apply (proj2 (proj2 (load_password_order Demo.plain "~/.ssh/id_rsa" "./token.enc"
                           Demo.initial)
                    ltac:(compute_done))).
    left. reflexivity.
Defined.

(** ** [main] *)

Lemma main_after_query (E : externals) s token s1 answer :
  load_password E "~/.ssh/id_rsa" "./token.enc" s = (Ok token, s1) ->
  requests_answer E (getMe_url token) (log (HttpGet (getMe_url token)) s1) = Ok answer ->
  main E s =
    (assert (status_code answer =? 200)%Z assert_text;;
     body <- lift (json_body answer);;
     ok <- lift (json_get "ok" body);;
     if truthy ok
     then print already_running_text
     else
       (emit (BuildApp token);;
        emit (AddHandler (CommandHandler "start" cb_start));;
        emit (AddHandler (CommandHandler "help" cb_help));;
        emit (AddHandler (MessageHandler_text_not_command cb_download_url));;
        print ready_text;;
        emit RunPolling)) (log (HttpGet (getMe_url token)) s1).
Proof.
  intros Hl Hq. unfold main.
  rewrite (bind_ok _ _ _ _ _ Hl).
  erewrite bind_ok; [reflexivity|].
  unfold requests_get, bind, emit, ask. now rewrite Hq.
Qed.

(** C1: once the token is loaded and the identity endpoint has
    answered, [main] raises an [AssertionError] when the status is not
    200, having done nothing after the query; and when the status is
    200 and the answer reports the bot as active, [main] prints the
    notice and returns: the log ends with the query and the notice, so
    that no application is built, no handler registered and no polling
    started. *)
Theorem main_liveness_check (E : externals) (s s1 : state) (token : string)
        (answer : response) :
  let s2 := log (HttpGet (getMe_url token)) s1 in
  load_password E "~/.ssh/id_rsa" "./token.enc" s = (Ok token, s1) ->
  requests_answer E (getMe_url token) s2 = Ok answer ->
  (status_code answer <> 200%Z ->
   main E s = (Raise (Exn AssertionError assert_text), s2)) /\
  (status_code answer = 200%Z ->
   forall body ok,
     json_body answer = Ok body ->
     json_get "ok" body = Ok ok ->
     truthy ok = true ->
     main E s = (Ok tt, log (Print already_running_text) s2)).
Proof.
  cbv zeta. intros Hl Hq. rewrite (main_after_query E s token s1 answer Hl Hq).
  split.
  - intros Hne. apply bind_raise. unfold assert.
    destruct (Z.eqb_spec (status_code answer) 200); [contradiction|reflexivity].
  - intros Heq body ok Hb Hg Ht.
    unfold bind, assert, lift. rewrite Heq. simpl.
    now rewrite Hb, Hg, Ht.
Qed.

Lemma main_liveness_check_witness :
  let rejected := Response 401 (Ok (JDict [("ok", JBool false)])) in
  let s2 := log (HttpGet (getMe_url "env-token")) Demo.with_env in
  main (Demo.world (Ok "") (Ok rejected)) Demo.with_env
  = (Raise (Exn AssertionError assert_text), s2) /\
  main Demo.plain Demo.with_env = (Ok tt, log (Print already_running_text) s2).
Proof.
  cbv zeta. split.
  - apply (proj1 (main_liveness_check
                    (Demo.world (Ok "") (Ok (Response 401 (Ok (JDict [("ok", JBool false)])))))
                    Demo.with_env Demo.with_env "env-token"
                    (Response 401 (Ok (JDict [("ok", JBool false)])))
                    eq_refl eq_refl)).
    simpl. lia.
  - apply (proj2 (main_liveness_check Demo.plain Demo.with_env Demo.with_env "env-token"
                    Demo.alive eq_refl eq_refl)
             eq_refl (JDict [("ok", JBool true)]) (JBool true) eq_refl eq_refl eq_refl).
Defined.

(** * Further properties *)

(** ** [load_password], continued *)

(** What [load_password] does to the outside, case by case. *)
Lemma load_password_trace (E : externals) (private_key_path token_path : string) (s : state) :
  let key := os_path_expanduser E private_key_path in
  trace (snd (load_password E private_key_path token_path s)) =
    (trace s ++
     if bool_decide (token_path ∈ fs s) && bool_decide (key ∈ fs s)
     then [SubprocessRun ["age"; "-d"; "-i"; key; token_path]]
     else match environ s !! "TOKEN" with
          | Some t => if PyStr.is_empty t then [Getpass getpass_prompt] else []
          | None => [Getpass getpass_prompt]
          end)%list.
Proof.
  cbv zeta.
  destruct (decide (token_path ∈ fs s)) as [Ht|Ht];
    [destruct (decide (os_path_expanduser E private_key_path ∈ fs s)) as [Hk|Hk]|].
  - rewrite (load_password_decrypts E _ _ s Ht Hk).
    rewrite !bool_decide_eq_true_2 by assumption. simpl.
    unfold try_except, subprocess_run, bind, emit, ask, ret, raise.
    destruct (subprocess_stdout E _ _) as [out|e]; [reflexivity|].
    now destruct (is_CalledProcessError e).
  - rewrite (load_password_falls_back E _ _ s) by tauto.
    rewrite (bool_decide_eq_false_2 _ Hk), andb_false_r.
    destruct (environ s !! "TOKEN") as [t|]; [destruct (PyStr.is_empty t)|];
      simpl; now rewrite ?app_nil_r.
  - rewrite (load_password_falls_back E _ _ s) by tauto.
    rewrite (bool_decide_eq_false_2 _ Ht). simpl.
    destruct (environ s !! "TOKEN") as [t|]; [destruct (PyStr.is_empty t)|];
      simpl; now rewrite ?app_nil_r.
Qed.

(** X1: [load_password] does at most one thing to the outside.  It runs
    the decryption tool exactly when both files exist, and it prompts
    exactly when a file is missing and [TOKEN] is unset or empty; with
    a file missing and [TOKEN] set, nothing is run and nobody is
    asked. *)
Theorem load_password_one_action (E : externals) (private_key_path token_path : string)
        (s : state) :
  let key := os_path_expanduser E private_key_path in
  let both := bool_decide (token_path ∈ fs s) && bool_decide (key ∈ fs s) in
  let usable := match environ s !! "TOKEN" with
                | Some t => negb (PyStr.is_empty t)
                | None => false
                end in
  trace (snd (load_password E private_key_path token_path s)) =
    (trace s ++
     if both then [SubprocessRun ["age"; "-d"; "-i"; key; token_path]]
     else if usable then [] else [Getpass getpass_prompt])%list.
Proof.
  cbv zeta. rewrite load_password_trace.
  destruct (_ && _); [reflexivity|].
  destruct (environ s !! "TOKEN") as [t|]; [now destruct (PyStr.is_empty t)|reflexivity].
Qed.

(** X2: when both files exist and the tool fails with anything but a
    [CalledProcessError], say because the tool is not installed, the
    exception leaves [load_password] as it is, class and text: only
    [CalledProcessError] is turned into [NotImplementedError]. *)
Theorem load_password_other_failure (E : externals) (private_key_path token_path : string)
        (s : state) (e : exn) :
  let key := os_path_expanduser E private_key_path in
  let args := ["age"; "-d"; "-i"; key; token_path] in
  token_path ∈ fs s -> key ∈ fs s ->
  subprocess_stdout E args (log (SubprocessRun args) s) = Raise e ->
  is_CalledProcessError e = false ->
  load_password E private_key_path token_path s = (Raise e, log (SubprocessRun args) s).
Proof.
  cbv zeta. intros Ht Hk He Hc.
  rewrite (load_password_decrypts E _ _ s Ht Hk).
  apply try_except_passed; [|exact Hc].
  unfold subprocess_run, bind, emit, ask. now rewrite He.
Qed.

Lemma load_password_other_failure_witness :
  let missing := Exn (OtherError "FileNotFoundError")
                     "[Errno 2] No such file or directory: 'age'" in
  load_password (Demo.world (Raise missing) (Ok Demo.alive))
                "~/.ssh/id_rsa" "./token.enc" Demo.with_key
  = (Raise missing,
     log (SubprocessRun ["age"; "-d"; "-i"; "/home/bot/.ssh/id_rsa"; "./token.enc"])
         Demo.with_key).
Proof.
  cbv zeta.
  apply (load_password_other_failure
           (Demo.world (Raise (Exn (OtherError "FileNotFoundError")
                                   "[Errno 2] No such file or directory: 'age'"))
                       (Ok Demo.alive))
           "~/.ssh/id_rsa" "./token.enc" Demo.with_key
           (Exn (OtherError "FileNotFoundError")
                "[Errno 2] No such file or directory: 'age'")
           ltac:(compute_done) ltac:(compute_done) eq_refl eq_refl).
Defined.



(** ** [main], continued *)

Lemma load_password_never_polls (E : externals) (private_key_path token_path : string)
      (s : state) :
  RunPolling ∉ trace s ->
  RunPolling ∉ trace (snd (load_password E private_key_path token_path s)).
Proof.
  intros Hs. rewrite load_password_trace. rewrite elem_of_app.
  intros [H|H]; [contradiction|].
  destruct (_ && _).
  - apply list_elem_of_singleton in H. discriminate.
  - destruct (environ s !! "TOKEN") as [t|]; [destruct (PyStr.is_empty t)|].
    + apply list_elem_of_singleton in H. discriminate.
    + now apply elem_of_nil in H.
    + apply list_elem_of_singleton in H. discriminate.
Qed.

(** X4: once the token is loaded and the identity endpoint has answered
    with status 200 and a JSON object whose [ok] is missing or false,
    [main] builds the application with the token, registers the
    handlers of [/start], of [/help] and of the texts that are not
    commands, in this order, prints that it is ready and starts
    polling. *)
Theorem main_starts_listener (E : externals) (s s1 : state) (token : string)
        (answer : response) (body ok : json) :
  load_password E "~/.ssh/id_rsa" "./token.enc" s = (Ok token, s1) ->
  requests_answer E (getMe_url token) (log (HttpGet (getMe_url token)) s1) = Ok answer ->
  status_code answer = 200%Z ->
  json_body answer = Ok body ->
  json_get "ok" body = Ok ok ->
  truthy ok = false ->
  main E s =
    (Ok tt,
     mkState (fs s1) (environ s1)
             (trace s1 ++
              [HttpGet (getMe_url token);
               BuildApp token;
               AddHandler (CommandHandler "start" cb_start);
               AddHandler (CommandHandler "help" cb_help);
               AddHandler (MessageHandler_text_not_command cb_download_url);
               Print ready_text;
               RunPolling])).
Proof.
  intros Hl Hq Hs Hb Hg Ht.
  rewrite (main_after_query E s token s1 answer Hl Hq).
  unfold bind, assert, lift. rewrite Hs. simpl. rewrite Hb, Hg, Ht.
  unfold emit, print, log. simpl.
  now rewrite <- !app_assoc.
Qed.

Lemma main_starts_listener_witness :
  let free := Response 200 (Ok (JDict [("ok", JBool false)])) in
  main (Demo.world (Ok "") (Ok free)) Demo.with_env =
    (Ok tt,
     mkState (fs Demo.with_env) (environ Demo.with_env)
             (trace Demo.with_env ++
              [HttpGet (getMe_url "env-token");
               BuildApp "env-token";
               AddHandler (CommandHandler "start" cb_start);
               AddHandler (CommandHandler "help" cb_help);
               AddHandler (MessageHandler_text_not_command cb_download_url);
               Print ready_text;
               RunPolling])).
Proof.
  cbv zeta.
  apply (main_starts_listener
           (Demo.world (Ok "") (Ok (Response 200 (Ok (JDict [("ok", JBool false)])))))
           Demo.with_env Demo.with_env "env-token"
           (Response 200 (Ok (JDict [("ok", JBool false)])))
           (JDict [("ok", JBool false)]) (JBool false)
           eq_refl eq_refl eq_refl eq_refl eq_refl eq_refl).
Defined.

(** X5: [main] never starts polling on its own authority.  If polling
    was started by a run of [main], then the token was loaded, the
    identity endpoint answered with status 200, its body was a JSON
    object, and the [ok] of that object was missing or false. *)
Theorem main_polls_only_when_free (E : externals) (s : state) :
  RunPolling ∉ trace s ->
  RunPolling ∈ trace (snd (main E s)) ->
  exists token s1 answer body ok,
    load_password E "~/.ssh/id_rsa" "./token.enc" s = (Ok token, s1) /\
    requests_answer E (getMe_url token) (log (HttpGet (getMe_url token)) s1) = Ok answer /\
    status_code answer = 200%Z /\
    json_body answer = Ok body /\
    json_get "ok" body = Ok ok /\
    truthy ok = false.
Proof.
  intros Hs Hrun.
  pose proof (load_password_never_polls E "~/.ssh/id_rsa" "./token.enc" s Hs) as Hload.
  destruct (load_password E "~/.ssh/id_rsa" "./token.enc" s) as [[token|e] s1] eqn:Hl.
  2: { exfalso. unfold main in Hrun. rewrite (bind_raise _ _ _ _ _ Hl) in Hrun.
       now apply Hload. }
  simpl in Hload.
  assert (Hquery : RunPolling ∉ trace (log (HttpGet (getMe_url token)) s1)).
  { simpl. rewrite elem_of_app, list_elem_of_singleton. intros [?|?]; [tauto|discriminate]. }
  destruct (requests_answer E (getMe_url token) (log (HttpGet (getMe_url token)) s1))
    as [answer|e] eqn:Hq.
  2: { exfalso. unfold main in Hrun. rewrite (bind_ok _ _ _ _ _ Hl) in Hrun.
       assert (Hget : requests_get E (getMe_url token) s1
                      = (Raise e, log (HttpGet (getMe_url token)) s1)).
       { unfold requests_get, bind, emit, ask. now rewrite Hq. }
       rewrite (bind_raise _ _ _ _ _ Hget) in Hrun. now apply Hquery. }
  rewrite (main_after_query E s token s1 answer Hl Hq) in Hrun.
  exists token, s1, answer.
  unfold bind, assert, lift in Hrun.
  destruct (Z.eqb_spec (status_code answer) 200) as [Hst|Hst];
    [|exfalso; simpl in Hrun; now apply Hquery].
  simpl in Hrun.
  destruct (json_body answer) as [body|e] eqn:Hb;
    [|exfalso; simpl in Hrun; now apply Hquery].
  destruct (json_get "ok" body) as [ok|e] eqn:Hg;
    [|exfalso; simpl in Hrun; now apply Hquery].
  destruct (truthy ok) eqn:Ht.
  - exfalso. simpl in Hrun.
    rewrite elem_of_app, list_elem_of_singleton in Hrun.
    destruct Hrun as [Hrun|Hrun]; [|discriminate].
    now apply Hquery.
  - exists body, ok. now repeat split.
Qed.

Lemma main_polls_only_when_free_witness :
  let E := Demo.world (Ok "") (Ok (Response 200 (Ok (JDict [("ok", JBool false)])))) in
  exists token s1 answer body ok,
    load_password E "~/.ssh/id_rsa" "./token.enc" Demo.with_env = (Ok token, s1) /\
    requests_answer E (getMe_url token) (log (HttpGet (getMe_url token)) s1) = Ok answer /\
    status_code answer = 200%Z /\
    json_body answer = Ok body /\
    json_get "ok" body = Ok ok /\
    truthy ok = false.
Proof.
  cbv zeta.
  apply (main_polls_only_when_free
           (Demo.world (Ok "") (Ok (Response 200 (Ok (JDict [("ok", JBool false)])))))
           Demo.with_env).
  - apply not_elem_of_nil.
  - vm_compute. repeat constructor.
Defined.

(** ** Reading a request *)

Lemma append_cons (x : ascii) (a b : string) : String x a +:+ b = String x (a +:+ b).
Proof. reflexivity. Qed.

Lemma append_assoc_string (a b c : string) : (a +:+ b) +:+ c = a +:+ (b +:+ c).
Proof.
  induction a as [|x a IH]; [reflexivity|]. now rewrite !append_cons, IH.
Qed.

Lemma append_empty_r (a : string) : a +:+ "" = a.
Proof.
  induction a as [|x a IH]; [reflexivity|]. now rewrite append_cons, IH.
Qed.

Lemma is_empty_append_l (a b : string) :
  PyStr.is_empty a = false -> PyStr.is_empty (a +:+ b) = false.
Proof. now destruct a. Qed.

(** Whitespace before a piece is skipped. *)
Lemma split_from_skip w rest :
  PyStr.all_space w = true ->
  PyStr.split_from "" (w +:+ rest) = PyStr.split_from "" rest.
Proof.
  induction w as [|c w IH]; simpl; [reflexivity|].
  intros H. apply andb_true_iff in H as [Hc Hw]. rewrite Hc. now apply IH.
Qed.

(** The characters of a piece are gathered. *)
Lemma split_from_gather tok u rest :
  PyStr.has_space u = false ->
  PyStr.split_from tok (u +:+ rest) = PyStr.split_from (tok +:+ u) rest.
Proof.
  revert tok. induction u as [|c u IH]; intros tok; simpl.
  - now rewrite append_empty_r.
  - intros H. apply orb_false_iff in H as [Hc Hu]. rewrite Hc.
    rewrite (IH _ Hu). now rewrite append_assoc_string.
Qed.


Lemma split_from_end tok w :
  PyStr.all_space w = true ->
  PyStr.split_from tok w = if PyStr.is_empty tok then [] else [tok].
Proof.
  revert tok. induction w as [|c w IH]; intros tok; simpl; [reflexivity|].
  intros H. apply andb_true_iff in H as [Hc Hw]. rewrite Hc.
  destruct (PyStr.is_empty tok); rewrite (IH _ Hw); reflexivity.
Qed.

Lemma split_one_token before url after :
  PyStr.is_token url = true ->
  PyStr.all_space before = true -> PyStr.all_space after = true ->
  PyStr.split (before +:+ url +:+ after) = [url].
Proof.
  intros Hu Hb Ha. apply andb_true_iff in Hu as [Hne Hns].
  apply negb_true_iff in Hne, Hns.
  unfold PyStr.split. rewrite (split_from_skip _ _ Hb).
  rewrite (split_from_gather _ _ _ Hns). change ("" +:+ url) with url.
  rewrite (split_from_end _ _ Ha). now rewrite Hne.
Qed.


(** *** [int(str(n))] *)

Lemma digits_have_no_space d :
  PyStr.has_space (NilEmpty.string_of_uint d) = false.
Proof. induction d; simpl; auto. Qed.

Lemma lstrip_token s : PyStr.starts_with_space s = false -> PyStr.lstrip s = s.
Proof. destruct s as [|c s]; simpl; [reflexivity|]. now intros ->. Qed.

Lemma rstrip_no_space s : PyStr.has_space s = false -> PyStr.rstrip s = s.
Proof.
  induction s as [|c s IH]; simpl; [reflexivity|].
  intros H. apply orb_false_iff in H as [Hc Hs]. now rewrite Hc, (IH Hs).
Qed.

Lemma strip_no_space s : PyStr.has_space s = false -> PyStr.strip s = s.
Proof.
  intros H. unfold PyStr.strip. rewrite lstrip_token.
  - now apply rstrip_no_space.
  - destruct s as [|c s]; [reflexivity|]. simpl in *.
    now apply orb_false_iff in H as [? _].
Qed.

Lemma digits_value_from p d :
  PyInt.digits_value (Z.pos p) true (NilEmpty.string_of_uint d)
  = Some (Z.pos (Pos.of_uint_acc d p)).
Proof.
  revert p. induction d; intros p; simpl; [reflexivity|..];
    match goal with
    | |- PyInt.digits_value ?a true _ = Some (Z.pos (Pos.of_uint_acc _ ?q)) =>
        replace a with (Z.pos q); [apply IHd|]
    end;
    match goal with
    | |- context [Z.of_nat (nat_of_ascii ?c)] =>
        let v := eval vm_compute in (Z.of_nat (nat_of_ascii c)) in
        change (Z.of_nat (nat_of_ascii c)) with v
    end; lia.
Qed.

Lemma digits_value_of_uint d b :
  PyInt.digits_value 0 b (NilEmpty.string_of_uint d)
  = match d with
    | Decimal.Nil => if b then Some 0%Z else None
    | _ => Some (Z.of_N (Pos.of_uint d))
    end.
Proof.
  revert b. induction d; intros b; simpl; try reflexivity;
    try apply digits_value_from.
  rewrite IHd. now destruct d.
Qed.

Lemma digits_value_to_uint p :
  PyInt.digits_value 0 false (NilEmpty.string_of_uint (Pos.to_uint p)) = Some (Z.pos p).
Proof.
  rewrite digits_value_of_uint.
  pose proof (Unsigned.of_to p) as H. pose proof (Unsigned.to_uint_nonnil p) as Hn.
  destruct (Pos.to_uint p); [contradiction|..]; now rewrite H.
Qed.

Lemma string_of_to_uint p :
  NilZero.string_of_uint (Pos.to_uint p) = NilEmpty.string_of_uint (Pos.to_uint p).
Proof.
  pose proof (Unsigned.to_uint_nonnil p) as Hn.
  now destruct (Pos.to_uint p).
Qed.

(** Reading what [str] printed gives the integer back. *)
Lemma of_int_pos p :
  PyStr.of_int (Z.pos p) = NilEmpty.string_of_uint (Pos.to_uint p).
Proof. unfold PyStr.of_int. simpl. apply string_of_to_uint. Qed.

Lemma of_int_neg p :
  PyStr.of_int (Z.neg p) = String "-" (NilEmpty.string_of_uint (Pos.to_uint p)).
Proof. unfold PyStr.of_int. simpl. now rewrite string_of_to_uint. Qed.

Lemma of_int_has_no_space n : PyStr.has_space (PyStr.of_int n) = false.
Proof.
  destruct n as [|p|p]; [reflexivity|..].
  - rewrite of_int_pos. apply digits_have_no_space.
  - rewrite of_int_neg. apply digits_have_no_space.
Qed.


(** Reading what [str] printed gives the integer back. *)
Lemma int_of_int n : PyInt.int (PyStr.of_int n) = Ok n.
Proof.
  unfold PyInt.int, PyInt.literal_value.
  rewrite strip_no_space by apply of_int_has_no_space.
  destruct n as [|p|p]; [reflexivity|..].
  - rewrite of_int_pos.
    pose proof (digits_value_to_uint p) as H.
    pose proof (Unsigned.to_uint_nonnil p) as Hn.
    destruct (Pos.to_uint p); [contradiction|..]; simpl in *; now rewrite H.
  - rewrite of_int_neg. now rewrite digits_value_to_uint.
Qed.

(** ** [download_url]: the forms of a request *)

Lemma guarded_body_one (E : externals) url s :
  guarded_body E [url] s = serve_request E url 0 s.
Proof. reflexivity. Qed.









(** ** [download_url]: when audio is sent *)



Lemma download_audio_silent (E : externals) url out s :
  exists new,
    trace (snd (download_audio E url out s)) = (trace s ++ new)%list /\
    silent new = true.
Proof.
  destruct (ydl_probe E (make_ydl_opts out) url (log (ExtractInfo url false) s))
    as [i|e] eqn:Hp.
  - destruct (decide (mp3_filename (ydl_prepare_filename E (make_ydl_opts out) i) ∈ fs s))
      as [Hin|Hout].
    + rewrite (download_audio_cached E url out s i Hp Hin).
      now exists [ExtractInfo url false].
    + rewrite (download_audio_fresh E url out s i Hp Hout).
      exists [ExtractInfo url false; ExtractInfo url true].
      split; [|reflexivity]. simpl. now rewrite <- app_assoc.
  - rewrite (download_audio_probe_fails E url out s e Hp).
    now exists [ExtractInfo url false].
Qed.

Lemma lower_pitch_silent (E : externals) a n s :
  exists new,
    trace (snd (lower_pitch E a n s)) = (trace s ++ new)%list /\
    silent new = true.
Proof.
  unfold lower_pitch. destruct (n =? 0)%Z.
  { exists []. now rewrite app_nil_r. }
  unfold bind at 1, os_path_exists.
  destruct (bool_decide (output_file_of a n ∈ fs s)).
  { exists []. now rewrite app_nil_r. }
  unfold load_audio, pitch_shift, write_audio, bind, emit, ask, act, ret.
  destruct (librosa_load E _ _) as [[y sr]|e].
  2: { now exists [LibrosaLoad (PyPath.to_string a)]. }
  simpl. destruct (librosa_pitch_shift E _ _ _ _) as [y'|e].
  2: { exists [LibrosaLoad (PyPath.to_string a); PitchShift n].
       split; [|reflexivity]. simpl. now rewrite <- app_assoc. }
  exists [LibrosaLoad (PyPath.to_string a); PitchShift n; SfWrite (output_file_of a n)].
  split; [|reflexivity].
  destruct (fst (sf_write E _ _ _ _)); simpl; now rewrite <- !app_assoc.
Qed.





(** ** The stages and the files *)

Lemma mp3_filename_suffix f : exists stem, mp3_filename f = stem +:+ ".mp3".
Proof. unfold mp3_filename. eauto. Qed.

(** X10: when [download_audio] returns, the path it returns is that of
    a file that exists, if the libraries are orderly; the name of that
    file ends in [.mp3], and every file that existed before still
    does. *)
Theorem download_audio_result_exists (E : externals) (url out : string)
        (s s' : state) (a : Path) :
  orderly E ->
  download_audio E url out s = (Ok a, s') ->
  exists stem,
    a = PyPath.of_string (stem +:+ ".mp3") /\
    stem +:+ ".mp3" ∈ fs s' /\
    fs s ⊆ fs s'.
Proof.
  intros HE Hrun.
  destruct (download_audio_leaves_file E HE url out s a s' Hrun) as (i & Hp & -> & Hin).
  destruct (mp3_filename_suffix (ydl_prepare_filename E (make_ydl_opts out) i))
    as (stem & Hstem).
  exists stem. rewrite <- Hstem. split; [reflexivity|]. split; [assumption|].
  destruct (decide (mp3_filename (ydl_prepare_filename E (make_ydl_opts out) i) ∈ fs s))
    as [Hc|Hf].
  - rewrite (download_audio_cached E url out s i Hp Hc) in Hrun.
    now injection Hrun as <-.
  - rewrite (download_audio_fresh E url out s i Hp Hf) in Hrun.
    injection Hrun as _ <-. simpl.
    apply (fetch_keeps E HE (make_ydl_opts out) url
             (log (ExtractInfo url true) (log (ExtractInfo url false) s))).
Qed.

Lemma download_audio_result_exists_witness :
  exists stem,
    PyPath.of_string "downloads/Song.mp3" = PyPath.of_string (stem +:+ ".mp3") /\
    stem +:+ ".mp3" ∈ fs (snd (download_audio Demo.plain "https://v" "downloads" Demo.initial)) /\
    fs Demo.initial ⊆ fs (snd (download_audio Demo.plain "https://v" "downloads" Demo.initial)).
Proof.
  apply (download_audio_result_exists Demo.plain "https://v" "downloads" Demo.initial
           (snd (download_audio Demo.plain "https://v" "downloads" Demo.initial))
           (PyPath.of_string "downloads/Song.mp3")
           (demo_orderly _ _)).
  vm_compute. reflexivity.
Defined.

(** X11: when [lower_pitch] returns, no file that existed before is
    lost, if the libraries are orderly.  With offset 0 the path of the
    audio file comes back and the state is unchanged; with any other
    offset the path is the tagged name beside the name of the parent
    directory, and that file exists. *)
Theorem lower_pitch_result_exists (E : externals) (a : Path) (n : Z)
        (s s' : state) (p : string) :
  orderly E ->
  lower_pitch E a n s = (Ok p, s') ->
  fs s ⊆ fs s' /\
  (n = 0%Z -> p = PyPath.to_string a /\ s' = s) /\
  (n <> 0%Z -> p = output_file_of a n /\ p ∈ fs s').
Proof.
  intros HE Hrun. destruct (Z.eq_dec n 0) as [->|Hn].
  - injection Hrun as <- <-. split; [set_solver|]. split; [now split|tauto].
  - destruct (lower_pitch_leaves_file E HE a n s p s' Hn Hrun) as (-> & Hin & Hsub).
    split; [assumption|]. split; [tauto|now split].
Qed.

Lemma lower_pitch_result_exists_witness :
  let a := PyPath.of_string "music/downloads/song.mp3" in
  let s' := snd (lower_pitch Demo.plain a 2 Demo.nested) in
  fs Demo.nested ⊆ fs s' /\
  (2%Z = 0%Z -> "downloads/(ST +2) song.mp3" = PyPath.to_string a /\ s' = Demo.nested) /\
  (2%Z <> 0%Z ->
   "downloads/(ST +2) song.mp3" = output_file_of a 2 /\
   "downloads/(ST +2) song.mp3" ∈ fs s').
Proof.
  cbv zeta.
  apply (lower_pitch_result_exists Demo.plain
           (PyPath.of_string "music/downloads/song.mp3") 2 Demo.nested
           (snd (lower_pitch Demo.plain (PyPath.of_string "music/downloads/song.mp3") 2
                   Demo.nested))
           "downloads/(ST +2) song.mp3" (demo_orderly _ _)).
  vm_compute. reflexivity.
Defined.

(** ** The same request again *)

Lemma elem_of_larger (X Y : gset string) (x : string) : X ⊆ Y -> x ∈ X -> x ∈ Y.
Proof. set_solver. Qed.

Lemma serve_request_ok (E : externals) url n s s' :
  serve_request E url n s = (Ok tt, s') ->
  exists a sa p sp,
    download_audio E url "downloads" s = (Ok a, sa) /\
    lower_pitch E a n (log (ReplyText ("Downloaded content: " +:+ PyPath.name a)) sa)
      = (Ok p, sp) /\
    open_rb E p (log (OpenRb p) sp) = Ok tt /\
    s' = log (ReplyAudio p) (log (OpenRb p) sp).
Proof.
  unfold serve_request. intros Hrun.
  destruct (download_audio E url "downloads" s) as [[a|e] sa] eqn:Hd.
  2: { rewrite (bind_raise _ _ _ _ _ Hd) in Hrun. discriminate. }
  rewrite (bind_ok _ _ _ _ _ Hd) in Hrun.
  rewrite (bind_ok (reply_text _) _ sa tt
             (log (ReplyText ("Downloaded content: " +:+ PyPath.name a)) sa) eq_refl) in Hrun.
  destruct (lower_pitch E a n (log (ReplyText ("Downloaded content: " +:+ PyPath.name a)) sa))
    as [[p|e] sp] eqn:Hl.
  2: { rewrite (bind_raise _ _ _ _ _ Hl) in Hrun. discriminate. }
  rewrite (bind_ok _ _ _ _ _ Hl) in Hrun.
  unfold open_file, reply_audio, bind, emit, ask in Hrun.
  destruct (open_rb E p (log (OpenRb p) sp)) as [[]|e] eqn:Ho; [|discriminate].
  injection Hrun as <-. now exists a, sa, p, sp.
Qed.

(** X12: a request that was served once is served again from the
    files.  If the libraries are orderly, no file was removed since and
    the probe answers as it did, then the second run probes, sends the
    same notice and opens the file the first run sent; it sends that
    file if the opening succeeds and raises what the opening raises
    otherwise.  It does nothing else: no download, no load, no
    transform, no write, and the files are as they were. *)
Theorem serve_request_again (E : externals) (url : string) (n : Z) (s0 s1 s2 : state) :
  orderly E ->
  serve_request E url n s0 = (Ok tt, s1) ->
  fs s1 ⊆ fs s2 ->
  ydl_probe E (make_ydl_opts "downloads") url (log (ExtractInfo url false) s2) =
    ydl_probe E (make_ydl_opts "downloads") url (log (ExtractInfo url false) s0) ->
  exists before notice p,
    trace s1 = (before ++ [OpenRb p; ReplyAudio p])%list /\
    ReplyText notice ∈ before /\
    let opened := log (OpenRb p)
                      (log (ReplyText notice) (log (ExtractInfo url false) s2)) in
    serve_request E url n s2 =
      match open_rb E p opened with
      | Ok _ => (Ok tt, log (ReplyAudio p) opened)
      | Raise e => (Raise e, opened)
      end.
Proof.
  intros HE Hrun Hsub Hsame.
  destruct (serve_request_ok E url n s0 s1 Hrun) as (a & sa & p & sp & Hd & Hl & Ho & ->).
  set (notice := "Downloaded content: " +:+ PyPath.name a) in *.
  destruct (download_audio_leaves_file E HE url "downloads" s0 a sa Hd)
    as (i & Hp & Ha & Hfile).
  destruct (download_audio_silent E url "downloads" s0) as (d & Hdt & _).
  rewrite Hd in Hdt. simpl in Hdt.
  destruct (lower_pitch_silent E a n (log (ReplyText notice) sa)) as (l & Hlt & _).
  rewrite Hl in Hlt. simpl in Hlt.
  assert (Hkeep : fs sa ⊆ fs sp /\ (n <> 0%Z -> p = output_file_of a n /\ p ∈ fs sp)
                  /\ (n = 0%Z -> p = PyPath.to_string a)).
  { destruct (Z.eq_dec n 0) as [->|Hn].
    - injection Hl as <- <-. split; [set_solver|]. split; [tauto|reflexivity].
    - destruct (lower_pitch_leaves_file E HE a n _ p sp Hn Hl) as (-> & Hin & Hs).
      split; [exact Hs|]. split; [now split|tauto]. }
  destruct Hkeep as (Hsa & Hshift & Hzero).
  exists (trace s0 ++ d ++ ReplyText notice :: l)%list, notice, p.
  split; [|split].
  - simpl. rewrite Hlt, Hdt. now rewrite <- !app_assoc.
  - rewrite !elem_of_app. right. right. apply elem_of_cons. now left.
  - cbv zeta.
    assert (Hd2 : download_audio E url "downloads" s2 =
                  (Ok a, log (ExtractInfo url false) s2)).
    { rewrite Ha. rewrite <- Hsame in Hp.
      apply (download_audio_cached E url "downloads" s2 i Hp).
      apply (elem_of_larger _ _ _ Hsub). simpl.
      now apply (elem_of_larger _ _ _ Hsa). }
    assert (Hl2 : lower_pitch E a n (log (ReplyText notice) (log (ExtractInfo url false) s2))
                  = (Ok p, log (ReplyText notice) (log (ExtractInfo url false) s2))).
    { destruct (Z.eq_dec n 0) as [->|Hn].
      - rewrite (Hzero eq_refl). reflexivity.
      - destruct (Hshift Hn) as (-> & Hin).
        apply lower_pitch_cached; [assumption|]. simpl.
        now apply (elem_of_larger _ _ _ Hsub). }
    unfold serve_request.
    rewrite (bind_ok _ _ _ _ _ Hd2).
    rewrite (bind_ok (reply_text _) _ _ tt
               (log (ReplyText notice) (log (ExtractInfo url false) s2)) eq_refl).
    rewrite (bind_ok _ _ _ _ _ Hl2).
    unfold open_file, reply_audio, bind, emit, ask.
    now destruct (open_rb E p _) as [[]|e].
Qed.

Lemma serve_request_again_witness :
  let s1 := snd (serve_request Demo.plain "https://v" (-2) Demo.initial) in
  exists before notice p,
    trace s1 = (before ++ [OpenRb p; ReplyAudio p])%list /\
    ReplyText notice ∈ before /\
    let opened := log (OpenRb p)
                      (log (ReplyText notice) (log (ExtractInfo "https://v" false) s1)) in
    serve_request Demo.plain "https://v" (-2) s1 =
      match Demo.open p opened with
      | Ok _ => (Ok tt, log (ReplyAudio p) opened)
      | Raise e => (Raise e, opened)
      end.
Proof.
  cbv zeta.
  apply (serve_request_again Demo.plain "https://v" (-2) Demo.initial
           (snd (serve_request Demo.plain "https://v" (-2) Demo.initial))
           (snd (serve_request Demo.plain "https://v" (-2) Demo.initial))
           (demo_orderly _ _)).
  - vm_compute. reflexivity.
  - reflexivity.
  - reflexivity.
Defined.

(** ** The name of the shifted file *)

Lemma length_append_string (a b : string) :
  String.length (a +:+ b) = (String.length a + String.length b)%nat.
Proof.
  induction a as [|x a IH]; [reflexivity|]. rewrite append_cons. simpl. now rewrite IH.
Qed.

Lemma append_same_length (a b t t' : string) :
  String.length a = String.length b -> a +:+ t = b +:+ t' -> a = b.
Proof.
  revert b. induction a as [|x a IH]; intros [|y b]; simpl; try discriminate.
  - reflexivity.
  - intros Hlen. rewrite !append_cons. intros H. injection H as -> H.
    f_equal. apply IH; [lia|assumption].
Qed.

Lemma append_cancel_r (a b t : string) : a +:+ t = b +:+ t -> a = b.
Proof.
  intros H. apply (append_same_length a b t t); [|assumption].
  apply (f_equal String.length) in H. rewrite !length_append_string in H. lia.
Qed.

Lemma append_nil_l (a : string) : "" +:+ a = a.
Proof. reflexivity. Qed.

Lemma shifted_name_relative n name :
  PyStr.startswith_char "/" (shifted_name n name) = false.
Proof. reflexivity. Qed.

Lemma join_shifted_name d n name :
  PyPath.join d (shifted_name n name) =
    (if PyStr.is_empty d || PyStr.endswith_char "/" d then d else d +:+ "/")
    +:+ shifted_name n name.
Proof.
  unfold PyPath.join. rewrite shifted_name_relative.
  destruct (_ || _); [reflexivity|]. now rewrite append_assoc_string.
Qed.

Lemma of_int_injective a b : PyStr.of_int a = PyStr.of_int b -> a = b.
Proof.
  intros H. apply (f_equal PyInt.int) in H. rewrite !int_of_int in H.
  now injection H.
Qed.

Lemma shifted_name_injective n m name :
  shifted_name n name = shifted_name m name -> n = m.
Proof.
  unfold shifted_name. intros H. apply String.app_inj in H.
  assert (Habs : Z.abs n = Z.abs m /\ (0 <? n)%Z = (0 <? m)%Z).
  { destruct (0 <? n)%Z, (0 <? m)%Z;
      rewrite !append_cons in H; try discriminate;
      injection H as H; rewrite !append_nil_l in H;
      apply append_cancel_r, of_int_injective in H; now split. }
  destruct Habs as [Ha Hs].
  destruct (Z.ltb_spec 0 n), (Z.ltb_spec 0 m); try discriminate; lia.
Qed.

(** X13: two offsets never share a shifted file.  For one audio file,
    the paths [lower_pitch] computes for two offsets are equal only if
    the offsets are: a file kept for one offset is never taken for
    another. *)
Theorem output_file_of_injective (a : Path) (n m : Z) :
  output_file_of a n = output_file_of a m -> n = m.
Proof.
  unfold output_file_of. rewrite !join_shifted_name. intros H.
  apply String.app_inj in H. now apply shifted_name_injective in H.
Qed.

Lemma output_file_of_injective_witness :
  output_file_of (PyPath.of_string "downloads/Song.mp3") 2 =
  output_file_of (PyPath.of_string "downloads/Song.mp3") (1 + 1) /\ 2%Z = (1 + 1)%Z.
Proof.
  split; [reflexivity|].
  apply (output_file_of_injective (PyPath.of_string "downloads/Song.mp3") 2 (1 + 1)).
  reflexivity.
Defined.

(** ** The shifted file and the audio file *)

Lemma endswith_char_append c a t :
  PyStr.is_empty t = false ->
  PyStr.endswith_char c (a +:+ t) = PyStr.endswith_char c t.
Proof.
  intros Ht. induction a as [|x a IH]; [reflexivity|].
  rewrite append_cons. simpl.
  destruct (a +:+ t) eqn:Hat; [|exact IH].
  destruct a; [|discriminate]. rewrite append_nil_l in Hat. now rewrite Hat in Ht.
Qed.

Lemma endswith_char_nonempty c s :
  PyStr.endswith_char c s = true -> PyStr.is_empty s = false.
Proof. now destruct s. Qed.

Lemma endswith_char_unique c c' s :
  PyStr.endswith_char c s = true -> PyStr.endswith_char c' s = true -> c = c'.
Proof.
  induction s as [|x s IH]; simpl; [discriminate|].
  destruct s; [|exact IH].
  intros H H'. apply Ascii.eqb_eq in H, H'. congruence.
Qed.

Lemma shifted_name_tag n name : shifted_name n name = shifted_name n "" +:+ name.
Proof.
  unfold shifted_name. now rewrite !append_assoc_string.
Qed.

Lemma tag_ends_with_space n : PyStr.endswith_char " " (shifted_name n "") = true.
Proof.
  unfold shifted_name. rewrite append_empty_r.
  set (sign := if (0 <? n)%Z then "+" else "-").
  replace ("(ST " +:+ sign +:+ PyStr.of_int (Z.abs n) +:+ ") ")
    with ((("(ST " +:+ sign) +:+ PyStr.of_int (Z.abs n)) +:+ ") ")
    by now rewrite !append_assoc_string.
  now rewrite endswith_char_append.
Qed.

(** The text of a path: what comes before the last component is empty,
    or the root, or ends with a slash. *)
Lemma join_last ns :
  ns <> [] ->
  exists P, PyStr.join "/" ns = P +:+ List.last ns "" /\
            (P = "" \/ PyStr.endswith_char "/" P = true).
Proof.
  induction ns as [|x ns IH]; [congruence|]. intros _.
  destruct ns as [|y ns].
  - exists "". split; [reflexivity|now left].
  - destruct IH as (P & HP & Hend); [congruence|].
    exists (x +:+ "/" +:+ P). split.
    + change (PyStr.join "/" (x :: y :: ns)) with (x +:+ "/" +:+ PyStr.join "/" (y :: ns)).
      change (List.last (x :: y :: ns) "") with (List.last (y :: ns) "").
      rewrite HP. now rewrite !append_assoc_string.
    + right. destruct Hend as [->|Hend].
      * now rewrite endswith_char_append.
      * rewrite <- append_assoc_string.
        rewrite endswith_char_append; [assumption|].
        now apply endswith_char_nonempty in Hend.
Qed.

Lemma parse_root_not_slash c r :
  Ascii.eqb c "/" = false -> PyPath.parse_root (String c r) = "".
Proof.
  destruct c as [[|] [|] [|] [|] [|] [|] [|] [|]]; intros H;
    try reflexivity; discriminate.
Qed.

Lemma parse_root_cases f :
  PyPath.parse_root f = "" \/ PyPath.parse_root f = "/" \/ PyPath.parse_root f = "//".
Proof.
  destruct f as [|c1 f]; [now left|].
  destruct (Ascii.eqb c1 "/") eqn:H1; [|left; now apply parse_root_not_slash].
  apply Ascii.eqb_eq in H1 as ->.
  destruct f as [|c2 f]; [right; now left|].
  destruct (Ascii.eqb c2 "/") eqn:H2.
  - apply Ascii.eqb_eq in H2 as ->.
    destruct f as [|c3 f]; [right; now right|].
    destruct (Ascii.eqb c3 "/") eqn:H3.
    + apply Ascii.eqb_eq in H3 as ->. right. now left.
    + right. right.
      destruct c3 as [[|] [|] [|] [|] [|] [|] [|] [|]]; try reflexivity; discriminate.
  - right. left.
    destruct c2 as [[|] [|] [|] [|] [|] [|] [|] [|]]; try reflexivity; discriminate.
Qed.

(** X14: [lower_pitch] never takes the audio file itself for the file
    to write.  For every path that [Path] makes of a string and every
    offset, the path computed for the shifted file differs from the
    text of the path of the audio file. *)
Theorem output_file_of_differs (f : string) (n : Z) :
  output_file_of (PyPath.of_string f) n <> PyPath.to_string (PyPath.of_string f).
Proof.
  set (a := PyPath.of_string f).
  assert (Hroot : PyPath.root a = "" \/ PyPath.root a = "/" \/ PyPath.root a = "//")
    by apply parse_root_cases.
  clearbody a. unfold output_file_of. rewrite join_shifted_name.
  set (D := if _ || _ then _ else _). clearbody D.
  unfold PyPath.to_string, PyPath.name.
  destruct (PyPath.names a) as [|x ns] eqn:Hns.
  - simpl. intros H.
    apply (f_equal (PyStr.endswith_char " ")) in H.
    rewrite endswith_char_append, tag_ends_with_space in H by reflexivity.
    destruct Hroot as [Hr| [Hr|Hr]]; rewrite Hr in H; discriminate.
  - destruct (join_last (x :: ns)) as (P & HP & Hend); [congruence|].
    assert (Htext : match PyPath.root a with
                    | "" => PyPath.root a +:+ PyStr.join "/" (x :: ns)
                    | String _ _ => PyPath.root a +:+ PyStr.join "/" (x :: ns)
                    end = (PyPath.root a +:+ P) +:+ List.last (x :: ns) "").
    { rewrite HP, append_assoc_string. now destruct (PyPath.root a). }
    intros H.
    assert (H' : (D +:+ shifted_name n "") +:+ List.last (x :: ns) ""
                 = (PyPath.root a +:+ P) +:+ List.last (x :: ns) "").
    { rewrite <- Htext, append_assoc_string, <- shifted_name_tag.
      rewrite H. now destruct (PyPath.root a). }
    apply append_cancel_r in H'.
    assert (Hsp : PyStr.endswith_char " " (PyPath.root a +:+ P) = true).
    { rewrite <- H'. rewrite endswith_char_append by reflexivity.
      apply tag_ends_with_space. }
    destruct Hend as [->|Hend].
    + rewrite append_empty_r in Hsp.
      destruct Hroot as [Hr| [Hr|Hr]]; rewrite Hr in Hsp; discriminate.
    + rewrite endswith_char_append in Hsp by (now apply endswith_char_nonempty in Hend).
      pose proof (endswith_char_unique _ _ _ Hsp Hend). discriminate.
Qed.

(** ** A file in one directory *)

Lemma contains_append c a b :
  PyStr.contains c (a +:+ b) = PyStr.contains c a || PyStr.contains c b.
Proof.
  induction a as [|x a IH]; [reflexivity|].
  rewrite append_cons. simpl. now rewrite IH, orb_assoc.
Qed.

Lemma digits_have_no_slash d :
  PyStr.contains "/" (NilEmpty.string_of_uint d) = false.
Proof. induction d; simpl; auto. Qed.

Lemma of_int_has_no_slash n : PyStr.contains "/" (PyStr.of_int n) = false.
Proof.
  destruct n as [|p|p]; [reflexivity|..].
  - rewrite of_int_pos. apply digits_have_no_slash.
  - rewrite of_int_neg. simpl. apply digits_have_no_slash.
Qed.

Lemma shifted_name_has_no_slash n name :
  PyStr.contains "/" name = false ->
  PyStr.contains "/" (shifted_name n name) = false.
Proof.
  intros H. unfold shifted_name.
  rewrite !contains_append, H, of_int_has_no_slash.
  now destruct (0 <? n)%Z.
Qed.

Lemma split_on_from_gather sep piece u rest :
  PyStr.contains sep u = false ->
  PyStr.split_on_from sep piece (u +:+ rest) = PyStr.split_on_from sep (piece +:+ u) rest.
Proof.
  revert piece. induction u as [|c u IH]; intros piece.
  - intros _. now rewrite append_nil_l, append_empty_r.
  - simpl. intros H. apply orb_false_iff in H as [Hc Hu].
    rewrite Hc, (IH _ Hu).
    now rewrite append_assoc_string.
Qed.

Lemma split_on_two sep a b :
  PyStr.contains sep a = false -> PyStr.contains sep b = false ->
  PyStr.split_on sep (a +:+ String sep b) = [a; b].
Proof.
  intros Ha Hb. unfold PyStr.split_on.
  rewrite (split_on_from_gather _ _ _ _ Ha), append_nil_l. simpl.
  rewrite Ascii.eqb_refl. f_equal.
  rewrite <- (append_empty_r b) at 1.
  now rewrite (split_on_from_gather _ _ _ _ Hb), append_nil_l.
Qed.

Lemma no_slash_not_at_end s :
  PyStr.contains "/" s = false -> PyStr.endswith_char "/" s = false.
Proof.
  induction s as [|c s IH]; [reflexivity|]. simpl.
  intros H. apply orb_false_iff in H as [Hc Hs].
  destruct s; [exact Hc|now apply IH].
Qed.

(** [Path] of a directory and a name in it. *)
Lemma of_string_two dir name :
  PyPath.keep_component dir = true -> PyPath.keep_component name = true ->
  PyStr.contains "/" dir = false -> PyStr.contains "/" name = false ->
  PyPath.of_string (dir +:+ "/" +:+ name) = mkPath "" [dir; name].
Proof.
  intros Hkd Hkn Hd Hn. unfold PyPath.of_string.
  change (dir +:+ "/" +:+ name) with (dir +:+ String "/" name).
  rewrite (split_on_two _ _ _ Hd Hn). simpl. rewrite Hkd, Hkn. f_equal.
  destruct dir as [|c dir]; [discriminate|].
  rewrite append_cons. apply parse_root_not_slash.
  simpl in Hd. now apply orb_false_iff in Hd as [? _].
Qed.

Lemma shifted_name_kept n name : PyPath.keep_component (shifted_name n name) = true.
Proof. reflexivity. Qed.

(** X15: for an audio file that lies in one relative directory, as the
    files of [downloads/] do, the shifted file lies in the same
    directory, and its name is the name of the audio file after the
    tag: [(ST +N) ] for an offset N above 0 and [(ST -M) ] for an
    offset of M below 0. *)
Theorem shifted_file_beside (dir name : string) (n : Z) :
  PyPath.keep_component dir = true -> PyPath.keep_component name = true ->
  PyStr.contains "/" dir = false -> PyStr.contains "/" name = false ->
  let audio_file := PyPath.of_string (dir +:+ "/" +:+ name) in
  let shifted := PyPath.of_string (output_file_of audio_file n) in
  PyPath.parent shifted = PyPath.parent audio_file /\
  PyPath.name shifted = shifted_name n (PyPath.name audio_file) /\
  (0 < n -> PyPath.name shifted = "(ST +" +:+ PyStr.of_int n +:+ ") " +:+ name)%Z /\
  (n < 0 -> PyPath.name shifted = "(ST -" +:+ PyStr.of_int (- n) +:+ ") " +:+ name)%Z.
Proof.
  intros Hkd Hkn Hd Hn. cbv zeta.
  rewrite (of_string_two dir name Hkd Hkn Hd Hn).
  assert (Hde : PyStr.is_empty dir = false).
  { unfold PyPath.keep_component in Hkd. apply andb_true_iff in Hkd as [H _].
    now apply negb_true_iff in H. }
  rewrite (output_file_of_flat dir name n Hde (no_slash_not_at_end dir Hd)).
  rewrite (of_string_two dir (shifted_name n name) Hkd (shifted_name_kept n name) Hd
             (shifted_name_has_no_slash n name Hn)).
  split; [reflexivity|]. split; [reflexivity|]. split; intros Hsign.
  - now apply shifted_name_up.
  - now apply shifted_name_down.
Qed.

Lemma shifted_file_beside_witness :
  let audio_file := PyPath.of_string ("downloads" +:+ "/" +:+ "Song.mp3") in
  let shifted := PyPath.of_string (output_file_of audio_file (-2)) in
  PyPath.parent shifted = PyPath.parent audio_file /\
  PyPath.name shifted = "(ST -2) Song.mp3".
Proof.
  cbv zeta.
  destruct (shifted_file_beside "downloads" "Song.mp3" (-2) eq_refl eq_refl eq_refl eq_refl)
    as (Hparent & _ & _ & Hdown).
  split; [exact Hparent|]. apply Hdown. lia.
Defined.

(** ** A request from beginning to end *)

(** X16: a first request with an offset other than 0, when nothing
    fails.  The audio is not there yet and neither is the shifted
    file: the handler's work is, in this order, the probe, the
    download, the notice with the name of the audio file, the load, the
    shift by the offset, the write of the shifted file at the sample
    rate that was loaded, the opening of the shifted file and its
    sending.  The files are those the write left. *)
Theorem serve_request_first_time (E : externals) (url : string) (n : Z) (s : state)
        (i i' : info E) (downloaded written : gset string)
        (y y' : samples E) (sr : Z) :
  let opts := make_ydl_opts "downloads" in
  let filename := mp3_filename (ydl_prepare_filename E opts i) in
  let audio_path := PyPath.of_string filename in
  let output_file := output_file_of audio_path n in
  let notice := ReplyText ("Downloaded content: " +:+ PyPath.name audio_path) in
  let s1 := log (ExtractInfo url false) s in
  let s2 := log (ExtractInfo url true) s1 in
  let s3 := log (LibrosaLoad (PyPath.to_string audio_path))
                (log notice (with_fs downloaded s2)) in
  let s4 := log (PitchShift n) s3 in
  let s5 := log (SfWrite output_file) s4 in
  let s6 := log (OpenRb output_file) (with_fs written s5) in
  n <> 0%Z ->
  ydl_probe E opts url s1 = Ok i ->
  filename ∉ fs s ->
  ydl_fetch E opts url s2 = (Ok i', downloaded) ->
  output_file ∉ downloaded ->
  librosa_load E (PyPath.to_string audio_path) s3 = Ok (y, sr) ->
  librosa_pitch_shift E y sr n s4 = Ok y' ->
  sf_write E output_file y' sr s5 = (Ok tt, written) ->
  open_rb E output_file s6 = Ok tt ->
  serve_request E url n s =
    (Ok tt,
     mkState written (environ s)
             (trace s ++
              [ExtractInfo url false; ExtractInfo url true; notice;
               LibrosaLoad (PyPath.to_string audio_path); PitchShift n;
               SfWrite output_file; OpenRb output_file; ReplyAudio output_file])).
Proof.
  cbv zeta. intros Hn Hp Hnew Hf Hout Hload Hshift Hwrite Hopen.
  set (filename := mp3_filename (ydl_prepare_filename E (make_ydl_opts "downloads") i)) in *.
  set (a := PyPath.of_string filename) in *.
  set (notice := ReplyText ("Downloaded content: " +:+ PyPath.name a)) in *.
  set (s2 := log (ExtractInfo url true) (log (ExtractInfo url false) s)) in *.
  assert (Hd : download_audio E url "downloads" s = (Ok a, with_fs downloaded s2)).
  { rewrite (download_audio_fresh E url "downloads" s i Hp Hnew). fold s2.
    now rewrite Hf. }
  set (s3 := log (LibrosaLoad (PyPath.to_string a)) (log notice (with_fs downloaded s2))) in *.
  set (s5 := log (SfWrite (output_file_of a n)) (log (PitchShift n) s3)) in *.
  assert (Hl : lower_pitch E a n (log notice (with_fs downloaded s2))
               = (Ok (output_file_of a n), with_fs written s5)).
  { unfold lower_pitch. destruct (Z.eqb_spec n 0) as [|_]; [contradiction|].
    unfold bind at 1. rewrite os_path_exists_false by exact Hout.
    unfold load_audio, pitch_shift, write_audio, bind, emit, ask, act, ret.
    fold s3. rewrite Hload. simpl. rewrite Hshift. fold s5. now rewrite Hwrite. }
  unfold serve_request.
  rewrite (bind_ok _ _ _ _ _ Hd).
  rewrite (bind_ok (reply_text _) _ _ tt (log notice (with_fs downloaded s2)) eq_refl).
  rewrite (bind_ok _ _ _ _ _ Hl).
  unfold open_file, reply_audio, bind, emit, ask. rewrite Hopen.
  unfold s5, s3, s2, log, with_fs. simpl. now rewrite <- !app_assoc.
Qed.

Lemma serve_request_first_time_witness :
  serve_request Demo.plain "https://v" (-2) Demo.initial =
    (Ok tt,
     mkState ({[ "downloads/(ST -2) Song.mp3" ]} ∪ ({[ "downloads/Song.mp3" ]} ∪ ∅)) ∅
             [ExtractInfo "https://v" false; ExtractInfo "https://v" true;
              ReplyText "Downloaded content: Song.mp3";
              LibrosaLoad "downloads/Song.mp3"; PitchShift (-2);
              SfWrite "downloads/(ST -2) Song.mp3";
              OpenRb "downloads/(ST -2) Song.mp3";
              ReplyAudio "downloads/(ST -2) Song.mp3"]).
Proof.
  apply (serve_request_first_time Demo.plain "https://v" (-2) Demo.initial
           "Song" "Song"
           ({[ "downloads/Song.mp3" ]} ∪ ∅)
           ({[ "downloads/(ST -2) Song.mp3" ]} ∪ ({[ "downloads/Song.mp3" ]} ∪ ∅))
           [0; 1; 0; -1]%Z [0; 1; 0; -1]%Z 44100%Z).
  - lia.
  - reflexivity.
  - compute_done.
  - reflexivity.
  - compute_done.
  - vm_compute. reflexivity.
  - reflexivity.
  - reflexivity.
  - vm_compute. reflexivity.
Defined.

(** X17: when the probe of the URL fails, the handler answers with the
    text of the failure and stops there: nothing is downloaded, no
    notice and no audio are sent, and the files are as they were. *)
Theorem download_url_unreachable (E : externals) (url before after : string)
        (s : state) (e : exn) :
  PyStr.is_token url = true ->
  PyStr.all_space before = true -> PyStr.all_space after = true ->
  ydl_probe E (make_ydl_opts "downloads") url (log (ExtractInfo url false) s) = Raise e ->
  download_url E (before +:+ url +:+ after) s =
    (Ok tt,
     mkState (fs s) (environ s)
             (trace s ++ [ExtractInfo url false; ReplyText ("Error: " +:+ exn_str e)])).
Proof.
  intros Hu Hb Ha Hp. rewrite download_url_run.
  rewrite (split_one_token before url after Hu Hb Ha). simpl.
  assert (Hbody : guarded_body E [url] s = (Raise e, log (ExtractInfo url false) s)).
  { rewrite guarded_body_one. unfold serve_request.
    apply bind_raise. now apply download_audio_probe_fails. }
  rewrite (try_except_caught _ _ _ _ _ _ Hbody eq_refl).
  unfold report_error, reply_text, emit, log. simpl. now rewrite <- app_assoc.
Qed.

Lemma download_url_unreachable_witness :
  download_url Demo.plain ("" +:+ "https://gone" +:+ "") Demo.initial =
    (Ok tt,
     mkState ∅ ∅ [ExtractInfo "https://gone" false;
                  ReplyText "Error: ERROR: Video unavailable"]).
Proof.
  apply (download_url_unreachable Demo.plain "https://gone" "" "" Demo.initial
           Demo.unavailable); reflexivity.
Defined.
